(** * hw/arm/t8030.c: boot-image layout, implementation registers and
      kernel patches of the T8030 machine

    A shallow embedding of the parts of [hw/arm/t8030.c] that compute the
    guest physical memory layout ([T8030_memory_setup]), keep the per-core
    implementation-defined registers ([T8030_CPREG_FUNCS],
    [T8030_add_cpregs], [cpu_impl_reg_read]) and patch the loaded kernel
    ([T8030_patch_kernel]).

    Conventions.  [hwaddr] and [uint64_t] are [Z] with the wrap-around modulo
    [2^64] written out at every addition and subtraction ([add64], [sub64]).
    Guest memory is a finite map from guest-physical addresses to bytes.
    Results that external collaborators hand back through out-parameters
    (sizes of loaded files, the kernel's virtual span, the encoded size of the
    device tree) are inputs of the model. *)

From Stdlib Require Import ZArith Lia List String Ascii Sorted.
From stdpp Require Import base option list gmap.

Local Open Scope Z_scope.

(** ** 64-bit machine arithmetic *)

Definition wrap64 (z : Z) : Z := z mod 2 ^ 64.
Definition add64 (a b : Z) : Z := wrap64 (a + b).
Definition sub64 (a b : Z) : Z := wrap64 (a - b).

(** ** Constants of the file (lines 41-50) *)

Definition T8030_SECURE_RAM_SIZE : Z := 0x100000.
Definition T8030_PHYS_BASE : Z := 0x40000000.
Definition CPU_IMPL_REG_BASE : Z := 0x210050000.
Definition CPM_IMPL_REG_BASE : Z := 0x210e40000.
Definition T8030_MAX_DEVICETREE_SIZE : Z := 0x40000.
Definition NOP_INST : Z := 0xd503201f.
Definition MOV_W0_01_INST : Z := 0x52800020.
Definition MOV_X13_0_INST : Z := 0xd280000d.
Definition RET_INST : Z := 0xd65f03c0.
Definition RETAB_INST : Z := 0xd65f0fff.

Definition g_nop_inst : Z := NOP_INST.
Definition g_mov_w0_01_inst : Z := MOV_W0_01_INST.
Definition g_mov_x13_0_inst : Z := MOV_X13_0_INST.
Definition g_ret_inst : Z := RET_INST.
Definition g_retab_inst : Z := RETAB_INST.

(** ** Helpers of the XNU loader used by the file *)

(** Modelled from the spec: [align_64k_high] belongs to the XNU loader
    (hw/arm/xnu.h), not to hw/arm/t8030.c.  The allocator contract
    (section 4.1) rounds an address up to the next multiple of the 64 KiB
    alignment; on a [hwaddr] this is the usual mask idiom
    [(addr + 0xffff) & ~0xffff], computed in 64 bits. *)
Definition align_64k_high (addr : Z) : Z :=
  Z.land (add64 addr 0xffff) (wrap64 (Z.lnot 0xffff)).

(** The two globals of the loader that [T8030_memory_setup] assigns on
    lines 275-276 and that the static address translation reads. *)
Record xnu_globals : Type := MkGlobals {
  g_virt_base : Z;
  g_phys_base : Z
}.

(** Modelled from the spec: [vtop_static] and [ptov_static] belong to the
    XNU loader, not to hw/arm/t8030.c.  Section 4.3 describes the
    translation of a kernel virtual address to its physical counterpart by
    the kernel's load slide, that is by the difference of the two bases
    above; the subtraction and addition are those of [hwaddr]. *)
Definition vtop_static (g : xnu_globals) (va : Z) : Z :=
  add64 (sub64 va (g_virt_base g)) (g_phys_base g).

Definition ptov_static (g : xnu_globals) (pa : Z) : Z :=
  add64 (sub64 pa (g_phys_base g)) (g_virt_base g).

(** ** The per-core register bank *)

(** One constructor per use of [T8030_CPREG_FUNCS] (lines 75-113), in the
    order of the source. *)
Inductive cpreg : Type :=
  | ARM64_REG_HID11
  | ARM64_REG_HID3
  | ARM64_REG_HID5
  | ARM64_REG_HID4
  | ARM64_REG_HID8
  | ARM64_REG_HID7
  | ARM64_REG_LSU_ERR_STS
  | PMC0
  | PMC1
  | PMCR1
  | PMSR
  | L2ACTLR_EL1
  | ARM64_REG_APCTL_EL1
  | ARM64_REG_KERNELKEYLO_EL1
  | ARM64_REG_KERNELKEYHI_EL1
  | ARM64_REG_EHID4
  | S3_4_c15_c0_5
  | S3_4_c15_c1_3
  | S3_4_c15_c1_4
  | ARM64_REG_IPI_SR
  | ARM64_REG_CYC_OVRD
  | ARM64_REG_ACC_CFG
  | ARM64_REG_VMSA_LOCK_EL1
  | S3_6_c15_c1_0
  | S3_6_c15_c1_1
  | S3_6_c15_c1_2
  | S3_6_c15_c1_5
  | S3_6_c15_c1_6
  | S3_6_c15_c1_7
  | S3_6_c15_c3_0
  | S3_6_c15_c3_1
  | S3_6_c15_c8_0
  | S3_6_c15_c8_1
  | S3_6_c15_c8_2
  | S3_6_c15_c8_3
  | S3_6_c15_c9_1
  | UPMPCM
  | UPMCR0
  | UPMSR.

#[global] Instance cpreg_eq_dec : EqDecision cpreg.
Proof. solve_decision. Defined.

(** All register names, in the order of lines 75-113. *)
Definition all_cpregs : list cpreg :=
  [ ARM64_REG_HID11; ARM64_REG_HID3; ARM64_REG_HID5; ARM64_REG_HID4;
    ARM64_REG_HID8; ARM64_REG_HID7; ARM64_REG_LSU_ERR_STS; PMC0; PMC1; PMCR1;
    PMSR; L2ACTLR_EL1; ARM64_REG_APCTL_EL1; ARM64_REG_KERNELKEYLO_EL1;
    ARM64_REG_KERNELKEYHI_EL1; ARM64_REG_EHID4; S3_4_c15_c0_5; S3_4_c15_c1_3;
    S3_4_c15_c1_4; ARM64_REG_IPI_SR; ARM64_REG_CYC_OVRD; ARM64_REG_ACC_CFG;
    ARM64_REG_VMSA_LOCK_EL1; S3_6_c15_c1_0; S3_6_c15_c1_1; S3_6_c15_c1_2;
    S3_6_c15_c1_5; S3_6_c15_c1_6; S3_6_c15_c1_7; S3_6_c15_c3_0; S3_6_c15_c3_1;
    S3_6_c15_c8_0; S3_6_c15_c8_1; S3_6_c15_c8_2; S3_6_c15_c8_3; S3_6_c15_c9_1;
    UPMPCM; UPMCR0; UPMSR ].

(** [T8030CPU]: the fields of the structure that this file reads or writes.
    [T8030_CPREG_VAR_NAME(name)] names one [uint64_t] member per register;
    the members are rendered as one slot per constructor of [cpreg]. *)
Record T8030CPU : Type := MkCPU {
  cpu_id : Z;
  cpreg_var : cpreg -> Z
}.

Definition set_cpreg_var (name : cpreg) (value : Z) (tcpu : T8030CPU)
  : T8030CPU :=
  {| cpu_id := cpu_id tcpu;
     cpreg_var := fun r => if decide (r = name) then value else cpreg_var tcpu r |}.

(** [T8030_CPREG_FUNCS(name)], lines 52-64: the read and the write handler
    of the system-register path. *)
Definition T8030_cpreg_read (name : cpreg) (tcpu : T8030CPU) : Z :=
  cpreg_var tcpu name.

Definition T8030_cpreg_write (name : cpreg) (tcpu : T8030CPU) (value : Z)
  : T8030CPU :=
  set_cpreg_var name value tcpu.

(** The registers of [T8030_cp_reginfo_tcg] (lines 119-161): every name but
    [L2ACTLR_EL1], each with its encoding (op0, op1, crn, crm, op2). *)
Definition T8030_cp_reginfo_tcg : list (cpreg * (Z * Z * Z * Z * Z)) :=
  [ (ARM64_REG_HID11, (3, 0, 15, 13, 0));
    (ARM64_REG_HID3, (3, 0, 15, 3, 0));
    (ARM64_REG_HID5, (3, 0, 15, 5, 0));
    (ARM64_REG_HID4, (3, 0, 15, 4, 0));
    (ARM64_REG_EHID4, (3, 0, 15, 4, 1));
    (ARM64_REG_HID8, (3, 0, 15, 8, 0));
    (ARM64_REG_HID7, (3, 0, 15, 7, 0));
    (ARM64_REG_LSU_ERR_STS, (3, 3, 15, 0, 0));
    (PMC0, (3, 2, 15, 0, 0));
    (PMC1, (3, 2, 15, 1, 0));
    (PMCR1, (3, 1, 15, 1, 0));
    (PMSR, (3, 1, 15, 13, 0));
    (ARM64_REG_APCTL_EL1, (3, 4, 15, 0, 4));
    (ARM64_REG_KERNELKEYLO_EL1, (3, 4, 15, 1, 0));
    (ARM64_REG_KERNELKEYHI_EL1, (3, 4, 15, 1, 1));
    (S3_4_c15_c0_5, (3, 4, 15, 0, 5));
    (S3_4_c15_c1_3, (3, 4, 15, 1, 3));
    (S3_4_c15_c1_4, (3, 4, 15, 1, 4));
    (ARM64_REG_IPI_SR, (3, 5, 15, 1, 1));
    (ARM64_REG_CYC_OVRD, (3, 5, 15, 5, 0));
    (ARM64_REG_ACC_CFG, (3, 5, 15, 4, 0));
    (ARM64_REG_VMSA_LOCK_EL1, (3, 4, 15, 1, 2));
    (S3_6_c15_c1_0, (3, 6, 15, 1, 0));
    (S3_6_c15_c1_1, (3, 6, 15, 1, 1));
    (S3_6_c15_c1_2, (3, 6, 15, 1, 2));
    (S3_6_c15_c1_5, (3, 6, 15, 1, 5));
    (S3_6_c15_c1_6, (3, 6, 15, 1, 6));
    (S3_6_c15_c1_7, (3, 6, 15, 1, 7));
    (S3_6_c15_c3_0, (3, 6, 15, 3, 0));
    (S3_6_c15_c3_1, (3, 6, 15, 3, 1));
    (S3_6_c15_c8_0, (3, 6, 15, 8, 0));
    (S3_6_c15_c8_1, (3, 6, 15, 8, 1));
    (S3_6_c15_c8_2, (3, 6, 15, 8, 2));
    (S3_6_c15_c8_3, (3, 6, 15, 8, 3));
    (S3_6_c15_c9_1, (3, 6, 15, 9, 1));
    (UPMPCM, (3, 7, 15, 5, 4));
    (UPMCR0, (3, 7, 15, 0, 4));
    (UPMSR, (3, 7, 15, 6, 4)) ].

(** [T8030_add_cpregs], lines 169-188: the fourteen assignments, in the
    order of the source.  The call that registers [T8030_cp_reginfo_tcg]
    with the CPU does not touch the storage. *)
Definition T8030_add_cpregs (tcpu : T8030CPU) : T8030CPU :=
  let tcpu := set_cpreg_var ARM64_REG_HID11 0 tcpu in
  let tcpu := set_cpreg_var ARM64_REG_HID3 0 tcpu in
  let tcpu := set_cpreg_var ARM64_REG_HID5 0 tcpu in
  let tcpu := set_cpreg_var ARM64_REG_HID8 0 tcpu in
  let tcpu := set_cpreg_var ARM64_REG_HID7 0 tcpu in
  let tcpu := set_cpreg_var ARM64_REG_LSU_ERR_STS 0 tcpu in
  let tcpu := set_cpreg_var PMC0 0 tcpu in
  let tcpu := set_cpreg_var PMC1 0 tcpu in
  let tcpu := set_cpreg_var PMCR1 0 tcpu in
  let tcpu := set_cpreg_var PMSR 0 tcpu in
  let tcpu := set_cpreg_var L2ACTLR_EL1 0 tcpu in
  let tcpu := set_cpreg_var ARM64_REG_APCTL_EL1 2 tcpu in
  let tcpu := set_cpreg_var ARM64_REG_KERNELKEYLO_EL1 0 tcpu in
  let tcpu := set_cpreg_var ARM64_REG_KERNELKEYHI_EL1 0 tcpu in
  tcpu.

(** The registers [T8030_add_cpregs] assigns. *)
Definition assigned_by_add_cpregs (r : cpreg) : bool :=
  match r with
  | ARM64_REG_HID11 | ARM64_REG_HID3 | ARM64_REG_HID5 | ARM64_REG_HID8
  | ARM64_REG_HID7 | ARM64_REG_LSU_ERR_STS | PMC0 | PMC1 | PMCR1 | PMSR
  | L2ACTLR_EL1 | ARM64_REG_APCTL_EL1 | ARM64_REG_KERNELKEYLO_EL1
  | ARM64_REG_KERNELKEYHI_EL1 => true
  | _ => false
  end.

(** Messages written to the standard error stream by the MMIO handlers. *)
Inductive log_event : Type :=
  | LogImplRegWrite (id addr data : Z)
  | LogImplRegRead (id addr : Z).

(** [cpu_impl_reg_write], lines 365-371: prints, stores nothing. *)
Definition cpu_impl_reg_write (opaque : T8030CPU) (addr data size : Z)
  : T8030CPU * list log_event :=
  (opaque, [LogImplRegWrite (cpu_id opaque) addr data]).

(** [cpu_impl_reg_read], lines 372-378: prints and returns 0. *)
Definition cpu_impl_reg_read (opaque : T8030CPU) (addr size : Z)
  : Z * list log_event :=
  (0, [LogImplRegRead (cpu_id opaque) addr]).

(** The per-core part of the loop of [T8030_cpu_setup] (lines 420-459) that
    concerns the register bank: core [i] gets its identifier and its
    registers, for [i] below both [MAX_CPU] (the length of the array) and the
    configured number of cores. *)
Definition T8030_cpu_setup (smp_cpus : nat) (cpus : list T8030CPU)
  : list T8030CPU :=
  imap (fun i c =>
          if (i <? smp_cpus)%nat
          then T8030_add_cpregs {| cpu_id := Z.of_nat i; cpreg_var := cpreg_var c |}
          else c) cpus.

(** ** Guest memory and the kernel patches *)

(** Guest-physical memory is a finite map [gmap Z Z]: the byte stored at
    each address that RAM backs.  An address outside the map has nothing
    behind it that keeps a byte: it is unassigned, or it belongs to a window
    of a device, such as the windows [T8030_cpu_setup] maps, whose handlers
    drop what is written.  [bytes_of_uint32] gives the bytes of a [uint32_t]
    object as a [uint8_t] pointer to it reads them on a little-endian
    host. *)
Definition bytes_of_uint32 (w : Z) : list Z :=
  [ Z.land w 0xff;
    Z.land (Z.shiftr w 8) 0xff;
    Z.land (Z.shiftr w 16) 0xff;
    Z.land (Z.shiftr w 24) 0xff ].

(** Modelled from the spec: the guest address-space writer
    [address_space_rw] belongs to the memory core of the emulator, not to
    hw/arm/t8030.c.  Section 6 gives its contract, write(address, bytes),
    and section 4.3 its use: the bytes of the buffer overwrite the bytes at
    the address and after it.  The write can fail (sections 4.3 and 7): a
    byte aimed at an address that no RAM backs is not stored, and the
    primitive reports the failure in its result.  [T8030_patch_kernel] drops
    that result (lines 223-237), so the memory after the call is all it can
    observe.  With [is_write] false nothing is stored. *)
Fixpoint address_space_write (as_ : gmap Z Z) (addr : Z) (buf : list Z)
  : gmap Z Z :=
  match buf with
  | [] => as_
  | b :: buf' =>
      address_space_write (alter (fun _ => b) addr as_) (add64 addr 1) buf'
  end.

Definition address_space_rw (as_ : gmap Z Z) (addr : Z) (buf : list Z)
    (len : nat) (is_write : bool) : gmap Z Z :=
  if is_write then address_space_write as_ addr (take len buf) else as_.

(** [T8030_patch_kernel], lines 219-238.  [vtop_static] reads the two
    globals, passed here as [g]. *)
Definition T8030_patch_kernel (g : xnu_globals) (nsas : gmap Z Z)
  : gmap Z Z :=
  (* rorgn_stash_range *)
  let nsas := address_space_rw nsas (vtop_static g 0xFFFFFFF007B4A53C)
                (bytes_of_uint32 g_ret_inst) 4 true in
  (* rorgn_lockdown *)
  let nsas := address_space_rw nsas (vtop_static g 0xFFFFFFF007B4AECC)
                (bytes_of_uint32 g_ret_inst) 4 true in
  (* gxf_enable *)
  let nsas := address_space_rw nsas (vtop_static g 0xFFFFFFF00811CE98)
                (bytes_of_uint32 g_nop_inst) 4 true in
  (* pmap_ppl_locked_down = 1 *)
  let nsas := address_space_rw nsas (vtop_static g 0xFFFFFFF007B5A5A8)
                (bytes_of_uint32 g_nop_inst) 4 true in
  nsas.

(** A function on guest memory is an overlay when it lays a fixed set of
    bytes over the backed addresses of whatever memory it is given, and
    leaves every other address as it is. *)
Definition overlay (f : gmap Z Z -> gmap Z Z) : Prop :=
  exists W : gmap Z Z,
    forall (m : gmap Z Z) (k : Z),
      f m !! k = match W !! k with
                 | Some b => (fun _ => b) <$> m !! k
                 | None => m !! k
                 end.

(** ** The boot-image layout *)

(** Sizes and offsets of the two structures the layout reserves room for.
    The structures are declared in the headers of the XNU loader, so the
    layout takes their sizes as parameters. *)
Record xnu_abi : Type := MkAbi {
  sizeof_xnu_arm64_boot_args : Z;
  sizeof_AllocatedData : Z;
  offsetof_AllocatedData_ramfb : Z
}.

(** What [T8030_memory_setup] reads: the configuration of the machine and
    the values the collaborators store through their out-parameters. *)
Record setup_inputs : Type := MkInputs {
  (* machine->ram_size *)
  ram_size : Z;
  (* tms->ramdisk_filename *)
  ramdisk_filename : string;
  (* tms->use_ramfb *)
  use_ramfb : bool;
  (* macho_file_highest_lowest_base: virt_base, kernel_low, kernel_high *)
  macho_virt_base : Z;
  macho_kernel_low : Z;
  macho_kernel_high : Z;
  (* macho_load_raw_file: trustcache_size *)
  trustcache_file_size : Z;
  (* arm_load_macho: phys_pc *)
  macho_phys_pc : Z;
  (* macho_map_raw_file: the size of the ramdisk file *)
  ramdisk_file_size : Z;
  (* macho_load_dtb: dtb_size *)
  dtb_encoded_size : Z
}.

Definition with_use_ramfb (b : bool) (e : setup_inputs) : setup_inputs :=
  {| ram_size := ram_size e;
     ramdisk_filename := ramdisk_filename e;
     use_ramfb := b;
     macho_virt_base := macho_virt_base e;
     macho_kernel_low := macho_kernel_low e;
     macho_kernel_high := macho_kernel_high e;
     trustcache_file_size := trustcache_file_size e;
     macho_phys_pc := macho_phys_pc e;
     ramdisk_file_size := ramdisk_file_size e;
     dtb_encoded_size := dtb_encoded_size e |}.

(** [tms->ramdisk_filename[0]]: the first character of a C string, the
    terminating NUL when the string is empty. *)
Definition first_char (s : string) : Z :=
  match s with
  | EmptyString => 0
  | String c _ => Z.of_nat (nat_of_ascii c)
  end.

(** [video_boot_args v_bootargs]: zero-initialised (line 257), or filled by
    [xnu_get_video_bootargs] from the address of the framebuffer
    (line 336). *)
Inductive video_boot_args : Type :=
  | VideoZero
  | VideoOfRamfb (ramfb_pa : Z).

(** The locals of [T8030_memory_setup] and the fields of the machine state
    it assigns, as they stand after line 344.  [phys_ptr_history] lists the
    values [phys_ptr] takes, one per assignment, in program order. *)
Record layout : Type := MkLayout {
  globals : xnu_globals;
  virt_base : Z;
  kernel_low : Z;
  kernel_high : Z;
  trustcache_pa : Z;
  trustcache_size : Z;
  kpc_pa : Z;
  used_ram_for_blobs : Z;
  dtb_pa : Z;
  dtb_va : Z;
  ramdisk_file_dev_pa : Z;
  ramdisk_size : Z;
  kbootargs_pa : Z;
  extra_data_pa : Z;
  allocated_ram_pa : Z;
  ramfb_pa : Z;
  ramfb_device : option Z;
  v_bootargs : video_boot_args;
  top_of_kernel_data_pa : Z;
  remaining_mem_size : Z;
  mem_size : Z;
  dram_base : Z;
  dram_size : Z;
  phys_ptr : Z;
  phys_ptr_history : list Z
}.

(** [T8030_memory_setup], lines 242-344: everything up to the encoding of
    the device tree.  A local that is assigned more than once carries the
    line of the assignment in its name. *)
Definition memory_layout (abi : xnu_abi) (e : setup_inputs) : layout :=
  let used_ram_for_blobs_242 := 0 in
  let ramfb_pa_256 := 0 in
  let v_bootargs_257 := VideoZero in
  (* 272-277 *)
  let virt_base := macho_virt_base e in
  let kernel_low := macho_kernel_low e in
  let kernel_high := macho_kernel_high e in
  let g := {| g_virt_base := virt_base; g_phys_base := T8030_PHYS_BASE |} in
  let phys_ptr_277 := T8030_PHYS_BASE in
  (* 282-289: the trust cache *)
  let phys_ptr_282 := add64 phys_ptr_277 (align_64k_high 0x2000000) in
  let trustcache_pa := phys_ptr_282 in
  let trustcache_size := trustcache_file_size e in
  let phys_ptr_289 := add64 phys_ptr_282 (align_64k_high trustcache_size) in
  (* 292-300: the loaded kernel *)
  let phys_pc := macho_phys_pc e in
  let used_ram_for_blobs_296 :=
    add64 used_ram_for_blobs_242
          (sub64 (align_64k_high kernel_high) kernel_low) in
  let phys_ptr_300 := align_64k_high (vtop_static g kernel_high) in
  (* 303-307: the device tree *)
  let dtb_pa := phys_ptr_300 in
  let dtb_va := ptov_static g phys_ptr_300 in
  let phys_ptr_306 :=
    add64 phys_ptr_300 (align_64k_high T8030_MAX_DEVICETREE_SIZE) in
  let used_ram_for_blobs_307 :=
    add64 used_ram_for_blobs_296 (align_64k_high T8030_MAX_DEVICETREE_SIZE) in
  (* 309-322: the ramdisk *)
  let has_ramdisk := negb (first_char (ramdisk_filename e) =? 0) in
  let ramdisk_file_dev_pa := if has_ramdisk then phys_ptr_306 else 0 in
  let ramdisk_size :=
    if has_ramdisk then align_64k_high (ramdisk_file_size e) else 0 in
  let phys_ptr_319 :=
    if has_ramdisk then add64 phys_ptr_306 ramdisk_size else phys_ptr_306 in
  (* 325-330: the boot arguments *)
  let used_ram_for_blobs_325 :=
    add64 used_ram_for_blobs_307
          (align_64k_high (sizeof_xnu_arm64_boot_args abi)) in
  let kbootargs_pa := phys_ptr_319 in
  let phys_ptr_328 :=
    add64 phys_ptr_319 (align_64k_high (sizeof_xnu_arm64_boot_args abi)) in
  let extra_data_pa := phys_ptr_328 in
  let allocated_ram_pa := phys_ptr_328 in
  (* 332-337: the framebuffer *)
  let ramfb_pa :=
    if use_ramfb e
    then add64 extra_data_pa (offsetof_AllocatedData_ramfb abi)
    else ramfb_pa_256 in
  let ramfb_device := if use_ramfb e then Some ramfb_pa else None in
  let v_bootargs :=
    if use_ramfb e then VideoOfRamfb ramfb_pa else v_bootargs_257 in
  (* 339-344 *)
  let phys_ptr_339 :=
    add64 phys_ptr_328 (align_64k_high (sizeof_AllocatedData abi)) in
  let top_of_kernel_data_pa := phys_ptr_339 in
  let remaining_mem_size := sub64 (ram_size e) used_ram_for_blobs_325 in
  let mem_size :=
    add64 (sub64 allocated_ram_pa T8030_PHYS_BASE) remaining_mem_size in
  {| globals := g;
     virt_base := virt_base;
     kernel_low := kernel_low;
     kernel_high := kernel_high;
     trustcache_pa := trustcache_pa;
     trustcache_size := trustcache_size;
     kpc_pa := phys_pc;
     used_ram_for_blobs := used_ram_for_blobs_325;
     dtb_pa := dtb_pa;
     dtb_va := dtb_va;
     ramdisk_file_dev_pa := ramdisk_file_dev_pa;
     ramdisk_size := ramdisk_size;
     kbootargs_pa := kbootargs_pa;
     extra_data_pa := extra_data_pa;
     allocated_ram_pa := allocated_ram_pa;
     ramfb_pa := ramfb_pa;
     ramfb_device := ramfb_device;
     v_bootargs := v_bootargs;
     top_of_kernel_data_pa := top_of_kernel_data_pa;
     remaining_mem_size := remaining_mem_size;
     mem_size := mem_size;
     dram_base := T8030_PHYS_BASE;
     dram_size := mem_size;
     phys_ptr := phys_ptr_339;
     phys_ptr_history :=
       [phys_ptr_277; phys_ptr_282; phys_ptr_289; phys_ptr_300; phys_ptr_306]
       ++ (if has_ramdisk then [phys_ptr_319] else [])
       ++ [phys_ptr_328; phys_ptr_339] |}.

(** The ways the build stops the machine. *)
Inductive setup_failure : Type :=
  | AssertDtbSize.   (* assert(dtb_size <= T8030_MAX_DEVICETREE_SIZE) *)

(** What the boot-argument structure is filled with (lines 357-360) and the
    memory that backs the rest of the RAM (line 362). *)
Record boot_outcome : Type := MkOutcome {
  final_layout : layout;
  dtb_size : Z;
  bootargs_virt_base : Z;
  bootargs_phys_base : Z;
  bootargs_mem_size : Z;
  bootargs_top_of_kernel_data : Z;
  bootargs_dtb_va : Z;
  bootargs_dtb_size : Z;
  bootargs_video : video_boot_args;
  ram_region : Z * Z
}.

(** [T8030_memory_setup], the whole function: the layout, then the encoding
    of the device tree with the assertion on its size (lines 350-355), the
    boot arguments and the allocation of the remaining RAM. *)
Definition T8030_memory_setup (abi : xnu_abi) (e : setup_inputs)
  : setup_failure + boot_outcome :=
  let l := memory_layout abi e in
  let dtb_size := dtb_encoded_size e in
  if dtb_size <=? T8030_MAX_DEVICETREE_SIZE
  then inr {| final_layout := l;
              dtb_size := dtb_size;
              bootargs_virt_base := virt_base l;
              bootargs_phys_base := T8030_PHYS_BASE;
              bootargs_mem_size := mem_size l;
              bootargs_top_of_kernel_data := top_of_kernel_data_pa l;
              bootargs_dtb_va := dtb_va l;
              bootargs_dtb_size := dtb_size;
              bootargs_video := v_bootargs l;
              ram_region := (allocated_ram_pa l, remaining_mem_size l) |}
  else inl AssertDtbSize.

(** ** Regions, and the configurations used as examples *)

Inductive region_kind : Type :=
  | TrustCache
  | KernelSpan
  | DeviceTreeBlob
  | Ramdisk
  | BootArgsStruct
  | ExtraScratchData.

Record BootRegion : Type := MkRegion {
  region_name : region_kind;
  region_base : Z;
  region_size : Z
}.

(** The regions the build places, in the order of the source.  The size of a
    region the cursor reserves is the amount the cursor advances by; the
    kernel occupies its span from [kernel_low] to [kernel_high], translated.
    The ramdisk is listed when one is configured. *)
Definition boot_regions (abi : xnu_abi) (e : setup_inputs) : list BootRegion :=
  let l := memory_layout abi e in
  [ MkRegion TrustCache (trustcache_pa l) (align_64k_high (trustcache_size l));
    MkRegion KernelSpan (vtop_static (globals l) (kernel_low l))
             (sub64 (kernel_high l) (kernel_low l));
    MkRegion DeviceTreeBlob (dtb_pa l)
             (align_64k_high T8030_MAX_DEVICETREE_SIZE) ]
  ++ (if negb (first_char (ramdisk_filename e) =? 0)
      then [ MkRegion Ramdisk (ramdisk_file_dev_pa l) (ramdisk_size l) ]
      else [])
  ++ [ MkRegion BootArgsStruct (kbootargs_pa l)
                (align_64k_high (sizeof_xnu_arm64_boot_args abi));
       MkRegion ExtraScratchData (extra_data_pa l)
                (align_64k_high (sizeof_AllocatedData abi)) ].

Definition regions_disjoint (A B : BootRegion) : Prop :=
  region_base A + region_size A <= region_base B
  \/ region_base B + region_size B <= region_base A.

(** The room the ramdisk takes, before rounding: nothing when none is
    configured (the file is then not looked at). *)
Definition ramdisk_request (e : setup_inputs) : Z :=
  if negb (first_char (ramdisk_filename e) =? 0)
  then ramdisk_file_size e + 0xffff
  else 0.

(** No addition on the cursor wraps around [2^64]: the sizes are not
    negative, the trust cache fits above its base, and everything placed
    from the end of the kernel on fits below [2^64]. *)
Definition no_wraparound (abi : xnu_abi) (e : setup_inputs) : Prop :=
  0 <= trustcache_file_size e
  /\ 0 <= ramdisk_file_size e
  /\ 0 <= sizeof_xnu_arm64_boot_args abi
  /\ 0 <= sizeof_AllocatedData abi
  /\ T8030_PHYS_BASE + 0x2000000 + (trustcache_file_size e + 0xffff) < 2 ^ 64
  /\ vtop_static (MkGlobals (macho_virt_base e) T8030_PHYS_BASE)
                 (macho_kernel_high e)
     + 0xffff + T8030_MAX_DEVICETREE_SIZE + ramdisk_request e
     + (sizeof_xnu_arm64_boot_args abi + 0xffff)
     + (sizeof_AllocatedData abi + 0xffff) < 2 ^ 64.

(** The kernel image spans [kernel_low .. kernel_high] above the virtual
    base, and its translation stays below [2^64]. *)
Definition kernel_span_ok (e : setup_inputs) : Prop :=
  macho_virt_base e <= macho_kernel_low e
  /\ macho_kernel_low e <= macho_kernel_high e
  /\ macho_kernel_high e - macho_virt_base e + T8030_PHYS_BASE < 2 ^ 64.

(** The sum the bookkeeping would hold if every blob placed before the
    scratch data were counted: trust cache, kernel span, device tree,
    ramdisk and boot arguments, each with the rounding of the source. *)
Definition bytes_of_all_blobs (abi : xnu_abi) (e : setup_inputs) : Z :=
  let l := memory_layout abi e in
  align_64k_high (trustcache_size l)
  + (align_64k_high (kernel_high l) - kernel_low l)
  + align_64k_high T8030_MAX_DEVICETREE_SIZE
  + ramdisk_size l
  + align_64k_high (sizeof_xnu_arm64_boot_args abi).

(** The values of the layout that the kernel and the rest of the machine
    are handed: the bases of the boot arguments and of the scratch data, the
    top of the kernel data, and the base and size of the DRAM. *)
Definition layout_outputs (l : layout) : Z * Z * Z * Z * Z :=
  (kbootargs_pa l, extra_data_pa l, top_of_kernel_data_pa l,
   dram_base l, dram_size l).

(** Two runs of the whole build hand the same values on: both stop on the
    assertion, or both fill the boot arguments with the same memory size and
    top of kernel data and back the same range with RAM. *)
Definition same_handover (r1 r2 : setup_failure + boot_outcome) : Prop :=
  match r1, r2 with
  | inl f1, inl f2 => f1 = f2
  | inr o1, inr o2 =>
      bootargs_mem_size o1 = bootargs_mem_size o2
      /\ bootargs_top_of_kernel_data o1 = bootargs_top_of_kernel_data o2
      /\ bootargs_phys_base o1 = bootargs_phys_base o2
      /\ ram_region o1 = ram_region o2
  | _, _ => False
  end.

(** A register bank that is zero everywhere. *)
Definition zeroed_cpu (id : Z) : T8030CPU :=
  {| cpu_id := id; cpreg_var := fun _ => 0 |}.

(** Modelled from the spec: the array [tms->cpus] as [T8030_cpu_setup]
    finds it.  The machine object is created by the object model of the
    emulator, not by hw/arm/t8030.c; it is handed over zero-filled, and
    nothing writes the array before the loop of line 420.  These zeros are
    the initial values section 4.4 gives to every register that the setup
    does not assign. *)
Definition zero_filled_cpus (max_cpu : nat) : list T8030CPU :=
  replicate max_cpu (zeroed_cpu 0).

(** Structure sizes used in the examples. *)
Definition example_abi : xnu_abi :=
  {| sizeof_xnu_arm64_boot_args := 0x180;
     sizeof_AllocatedData := 0x1000;
     offsetof_AllocatedData_ramfb := 0 |}.

(** A kernel linked 0x7004000 above its virtual base, 32 MiB long, with a
    4 KiB trust cache, no ramdisk and 1 GiB of RAM. *)
Definition example_inputs : setup_inputs :=
  {| ram_size := 0x40000000;
     ramdisk_filename := EmptyString;
     use_ramfb := false;
     macho_virt_base := 0xFFFFFFF000000000;
     macho_kernel_low := 0xFFFFFFF007004000;
     macho_kernel_high := 0xFFFFFFF009004000;
     trustcache_file_size := 0x1000;
     macho_phys_pc := 0x47004000;
     ramdisk_file_size := 0;
     dtb_encoded_size := 0x20000 |}.

(** The same machine with a ramdisk of 0x12345 bytes. *)
Definition example_inputs_ramdisk : setup_inputs :=
  {| ram_size := 0x40000000;
     ramdisk_filename := String "r" EmptyString;
     use_ramfb := true;
     macho_virt_base := 0xFFFFFFF000000000;
     macho_kernel_low := 0xFFFFFFF007004000;
     macho_kernel_high := 0xFFFFFFF009004000;
     trustcache_file_size := 0x1000;
     macho_phys_pc := 0x47004000;
     ramdisk_file_size := 0x12345;
     dtb_encoded_size := 0x20000 |}.

(** A kernel whose span starts at the virtual base and is 32 MiB long: its
    translation ends where the trust cache begins. *)
Definition low_kernel_inputs : setup_inputs :=
  {| ram_size := 0x40000000;
     ramdisk_filename := EmptyString;
     use_ramfb := false;
     macho_virt_base := 0xFFFFFFF000000000;
     macho_kernel_low := 0xFFFFFFF000000000;
     macho_kernel_high := 0xFFFFFFF002000000;
     trustcache_file_size := 0x1000;
     macho_phys_pc := 0x40000000;
     ramdisk_file_size := 0;
     dtb_encoded_size := 0x20000 |}.

(** The first machine with a trust-cache file so large that its end
    reaches [2^64]. *)
Definition huge_trustcache_inputs : setup_inputs :=
  {| ram_size := 0x40000000;
     ramdisk_filename := EmptyString;
     use_ramfb := false;
     macho_virt_base := 0xFFFFFFF000000000;
     macho_kernel_low := 0xFFFFFFF007004000;
     macho_kernel_high := 0xFFFFFFF009004000;
     trustcache_file_size := 0xFFFFFFFFBE000000;
     macho_phys_pc := 0x47004000;
     ramdisk_file_size := 0;
     dtb_encoded_size := 0x20000 |}.

(** The first machine with a device tree one byte over the maximum. *)
Definition oversized_dtb_inputs : setup_inputs :=
  {| ram_size := 0x40000000;
     ramdisk_filename := EmptyString;
     use_ramfb := false;
     macho_virt_base := 0xFFFFFFF000000000;
     macho_kernel_low := 0xFFFFFFF007004000;
     macho_kernel_high := 0xFFFFFFF009004000;
     trustcache_file_size := 0x1000;
     macho_phys_pc := 0x47004000;
     ramdisk_file_size := 0;
     dtb_encoded_size := 0x40000 + 1 |}.

(** ** The patch table, and reading guest memory back *)

(** The four (virtual address, instruction) pairs of [T8030_patch_kernel],
    in the order of lines 223-237. *)
Definition patch_table : list (Z * Z) :=
  [ (0xFFFFFFF007B4A53C, g_ret_inst);    (* rorgn_stash_range *)
    (0xFFFFFFF007B4AECC, g_ret_inst);    (* rorgn_lockdown *)
    (0xFFFFFFF00811CE98, g_nop_inst);    (* gxf_enable *)
    (0xFFFFFFF007B5A5A8, g_nop_inst) ].  (* pmap_ppl_locked_down = 1 *)

(** One call of lines 223-237: the instruction [p.2] stored at the
    translation of [p.1]. *)
Definition apply_patch (g : xnu_globals) (nsas : gmap Z Z) (p : Z * Z)
  : gmap Z Z :=
  address_space_rw nsas (vtop_static g p.1) (bytes_of_uint32 p.2) 4 true.


(** The address [k] is one of the four a 32-bit store at [a] writes. *)
Definition in_window (a k : Z) : Prop :=
  k = add64 a 0 \/ k = add64 a 1 \/ k = add64 a 2 \/ k = add64 a 3.

#[global] Instance in_window_dec (a k : Z) : Decision (in_window a k).
Proof. unfold in_window. apply _. Defined.


(** A memory in which RAM, filled with zeros, backs the four patched words
    of a kernel loaded with the bases of the example machine, and nothing
    else. *)
Definition example_kernel_memory : gmap Z Z :=
  list_to_map
    ((fun a => (a, 0)) <$>
     [ 0x47B4A53C; 0x47B4A53D; 0x47B4A53E; 0x47B4A53F;
       0x47B4AECC; 0x47B4AECD; 0x47B4AECE; 0x47B4AECF;
       0x4811CE98; 0x4811CE99; 0x4811CE9A; 0x4811CE9B;
       0x47B5A5A8; 0x47B5A5A9; 0x47B5A5AA; 0x47B5A5AB ]).

(** ** More about the layout *)

Definition aligned_64k (z : Z) : Prop := z mod 65536 = 0.

Definition with_ramdisk_filename (name : string) (e : setup_inputs)
  : setup_inputs :=
  {| ram_size := ram_size e;
     ramdisk_filename := name;
     use_ramfb := use_ramfb e;
     macho_virt_base := macho_virt_base e;
     macho_kernel_low := macho_kernel_low e;
     macho_kernel_high := macho_kernel_high e;
     trustcache_file_size := trustcache_file_size e;
     macho_phys_pc := macho_phys_pc e;
     ramdisk_file_size := ramdisk_file_size e;
     dtb_encoded_size := dtb_encoded_size e |}.

Definition with_trustcache_file_size (size : Z) (e : setup_inputs)
  : setup_inputs :=
  {| ram_size := ram_size e;
     ramdisk_filename := ramdisk_filename e;
     use_ramfb := use_ramfb e;
     macho_virt_base := macho_virt_base e;
     macho_kernel_low := macho_kernel_low e;
     macho_kernel_high := macho_kernel_high e;
     trustcache_file_size := size;
     macho_phys_pc := macho_phys_pc e;
     ramdisk_file_size := ramdisk_file_size e;
     dtb_encoded_size := dtb_encoded_size e |}.

Definition with_ram_size (size : Z) (e : setup_inputs) : setup_inputs :=
  {| ram_size := size;
     ramdisk_filename := ramdisk_filename e;
     use_ramfb := use_ramfb e;
     macho_virt_base := macho_virt_base e;
     macho_kernel_low := macho_kernel_low e;
     macho_kernel_high := macho_kernel_high e;
     trustcache_file_size := trustcache_file_size e;
     macho_phys_pc := macho_phys_pc e;
     ramdisk_file_size := ramdisk_file_size e;
     dtb_encoded_size := dtb_encoded_size e |}.

(** Everything the layout computes from the end of the kernel on. *)
Definition placement_after_kernel (l : layout)
  : Z * Z * Z * Z * Z * Z * Z * Z :=
  (dtb_pa l, dtb_va l, ramdisk_file_dev_pa l, ramdisk_size l,
   kbootargs_pa l, extra_data_pa l, top_of_kernel_data_pa l,
   used_ram_for_blobs l).

(** Each region of the list starts where the one before it ends. *)
Definition packed (rs : list BootRegion) : Prop :=
  forall (i : nat) (A B : BootRegion),
    rs !! i = Some A -> rs !! S i = Some B ->
    region_base A + region_size A = region_base B.

(** The region lies inside the DRAM range of the layout. *)
Definition inside_dram (l : layout) (r : BootRegion) : Prop :=
  dram_base l <= region_base r
  /\ region_base r + region_size r <= dram_base l + dram_size l.

(** ** The reset handler *)

(** The part of [CPUARMState] that [T8030_cpu_reset] assigns. *)
Record CPUARMState : Type := MkEnv {
  xregs : nat -> Z;
  pc : Z
}.

(** [T8030_cpu_reset], lines 470-481, applied to the state [cpu_reset]
    leaves: register 0 gets the address of the boot arguments and the
    program counter the entry point, both as [T8030_memory_setup] recorded
    them in the machine state. *)
Definition T8030_cpu_reset (tms : layout) (env : CPUARMState) : CPUARMState :=
  {| xregs := fun n => if decide (n = 0%nat) then kbootargs_pa tms
                       else xregs env n;
     pc := kpc_pa tms |}.

(** ** Clusters, MMIO windows and the setup of the cores *)

(** The fields of a cluster that [T8030_cpu_setup] assigns
    (lines 406-408 and 412-414). *)
Record cluster : Type := MkCluster {
  cluster_base : Z;
  cluster_type : Z;
  cluster_id : Z
}.

(** Messages of the cluster handlers on the standard error stream. *)
Inductive cpm_log_event : Type :=
  | LogCpmWrite (id addr data : Z)
  | LogCpmRead (id addr : Z).

(** [cpm_impl_reg_write], lines 384-390: prints, stores nothing. *)
Definition cpm_impl_reg_write (opaque : cluster) (addr data size : Z)
  : cluster * list cpm_log_event :=
  (opaque, [LogCpmWrite (cluster_id opaque) addr data]).

(** [cpm_impl_reg_read], lines 391-397: prints and returns 0. *)
Definition cpm_impl_reg_read (opaque : cluster) (addr size : Z)
  : Z * list cpm_log_event :=
  (0, [LogCpmRead (cluster_id opaque) addr]).

(** [MemoryRegionOps] with the two callbacks the file fills in. *)
Record MemoryRegionOps (S L : Type) : Type := MkOps {
  ops_write : S -> Z -> Z -> Z -> S * list L;
  ops_read : S -> Z -> Z -> Z * list L
}.
Arguments MkOps {S L} _ _.
Arguments ops_write {S L} _ _ _ _ _.
Arguments ops_read {S L} _ _ _ _.

(** Lines 379-382 and 398-401. *)
Definition cpu_impl_reg_ops : MemoryRegionOps T8030CPU log_event :=
  MkOps cpu_impl_reg_write cpu_impl_reg_read.

Definition cpm_impl_reg_ops : MemoryRegionOps cluster cpm_log_event :=
  MkOps cpm_impl_reg_write cpm_impl_reg_read.

(** An access of the guest to a window, and what a sequence of accesses
    does through the callbacks of the window: the state of the owner after
    it, the values the reads returned and the lines printed, in order. *)
Inductive mmio_access : Type :=
  | MmioRead (addr size : Z)
  | MmioWrite (addr data size : Z).

Fixpoint run_accesses {S L : Type} (ops : MemoryRegionOps S L) (opaque : S)
    (accesses : list mmio_access) : S * list Z * list L :=
  match accesses with
  | [] => (opaque, [], [])
  | MmioRead addr size :: rest =>
      let '(v, out) := ops_read ops opaque addr size in
      let '(opaque', vs, outs) := run_accesses ops opaque rest in
      (opaque', v :: vs, out ++ outs)
  | MmioWrite addr data size :: rest =>
      let '(opaque1, out) := ops_write ops opaque addr data size in
      let '(opaque', vs, outs) := run_accesses ops opaque1 rest in
      (opaque', vs, out ++ outs)
  end.

Definition wrap32 (z : Z) : Z := z mod 2 ^ 32.

(** Line 450: the base of the window of a core.  [cpu_id] is an
    [unsigned int] (it is printed with [%u]), so the product is taken in 32
    bits before the 64-bit addition. *)
Definition cpu_impl_reg_addr (tcpu : T8030CPU) : Z :=
  add64 CPU_IMPL_REG_BASE (wrap32 (0x10000 * cpu_id tcpu)).

(** What the loop of [T8030_cpu_setup] gives a core besides its registers:
    the two properties it clears, whether the core starts powered off, and
    the window of its implementation registers. *)
Record core_setup : Type := MkCore {
  core_cpu : T8030CPU;
  core_has_el3 : bool;
  core_has_el2 : bool;
  core_start_powered_off : bool;
  core_impl_reg_base : Z;
  core_impl_reg_size : Z
}.

(** Lines 406-417: the two clusters. *)
Definition T8030_clusters : list cluster :=
  [ {| cluster_base := CPM_IMPL_REG_BASE;
       cluster_type := 0x45;
       cluster_id := 0 |};
    {| cluster_base := add64 CPM_IMPL_REG_BASE 0x10000;
       cluster_type := 0x50;
       cluster_id := 1 |} ].

(** Lines 420-459: the cores the loop reaches, those with an index below
    both the length of the array ([MAX_CPU]) and the configured number. *)
Definition T8030_cpu_setup_cores (smp_cpus : nat) (cpus : list T8030CPU)
  : list core_setup :=
  imap (fun i c =>
          let tcpu :=
            T8030_add_cpregs
              {| cpu_id := Z.of_nat i; cpreg_var := cpreg_var c |} in
          {| core_cpu := tcpu;
             core_has_el3 := false;
             core_has_el2 := false;
             core_start_powered_off := (0 <? i)%nat;
             core_impl_reg_base := cpu_impl_reg_addr tcpu;
             core_impl_reg_size := 0x10000 |})
       (take smp_cpus cpus).

(** The windows [T8030_cpu_setup] adds to the system memory, as (base,
    size): those of the two clusters, then those of the cores. *)
Definition impl_reg_windows (smp_cpus : nat) (cpus : list T8030CPU)
  : list (Z * Z) :=
  ((fun c => (cluster_base c, 0x10000)) <$> T8030_clusters)
  ++ ((fun c => (core_impl_reg_base c, core_impl_reg_size c))
      <$> T8030_cpu_setup_cores smp_cpus cpus).

Definition windows_disjoint (a b : Z * Z) : Prop :=
  a.1 + a.2 <= b.1 \/ b.1 + b.2 <= a.1.

(** ** The properties of the machine object *)

(** The characters of a C string: those before its first NUL. *)
Fixpoint c_str (s : string) : string :=
  match s with
  | EmptyString => EmptyString
  | String c s' =>
      if Ascii.eqb c Ascii.zero then EmptyString else String c (c_str s')
  end.

Fixpoint string_prefix (n : nat) (s : string) : string :=
  match n, s with
  | S n', String c s' => String c (string_prefix n' s')
  | _, _ => EmptyString
  end.

(** [g_strlcpy(dest, src, dest_size)] of GLib: [dest] receives at most
    [dest_size - 1] characters of [src] and is always NUL-terminated.  The
    result is the string [dest] then holds; [dest_size] is the size of an
    array here, at least 1. *)
Definition g_strlcpy (src : string) (dest_size : nat) : string :=
  string_prefix (dest_size - 1) (c_str src).

(** [g_strdup(str)] of GLib: a copy of the C string. *)
Definition g_strdup (str : string) : string := c_str str.

(** [strcmp(a, b) == 0]. *)
Definition strcmp_eq0 (a b : string) : bool :=
  String.eqb (c_str a) (c_str b).

(** The members of [T8030MachineState] behind the five properties of
    [T8030_instance_init]. *)
Record machine_properties : Type := MkProps {
  tms_ramdisk_filename : string;
  tms_kernel_filename : string;
  tms_dtb_filename : string;
  tms_kern_args : string;
  tms_use_ramfb : bool
}.

(** The sizes of the four character arrays; the structure is declared in
    the header of the machine, so the sizes are parameters. *)
Record property_sizes : Type := MkSizes {
  sizeof_ramdisk_filename : nat;
  sizeof_kernel_filename : nat;
  sizeof_dtb_filename : nat;
  sizeof_kern_args : nat
}.

(** Lines 512-566: the setters and getters of the four strings. *)
Definition T8030_set_ramdisk_filename (sz : property_sizes)
    (tms : machine_properties) (value : string) : machine_properties :=
  {| tms_ramdisk_filename := g_strlcpy value (sizeof_ramdisk_filename sz);
     tms_kernel_filename := tms_kernel_filename tms;
     tms_dtb_filename := tms_dtb_filename tms;
     tms_kern_args := tms_kern_args tms;
     tms_use_ramfb := tms_use_ramfb tms |}.

Definition T8030_get_ramdisk_filename (tms : machine_properties) : string :=
  g_strdup (tms_ramdisk_filename tms).

Definition T8030_set_kernel_filename (sz : property_sizes)
    (tms : machine_properties) (value : string) : machine_properties :=
  {| tms_ramdisk_filename := tms_ramdisk_filename tms;
     tms_kernel_filename := g_strlcpy value (sizeof_kernel_filename sz);
     tms_dtb_filename := tms_dtb_filename tms;
     tms_kern_args := tms_kern_args tms;
     tms_use_ramfb := tms_use_ramfb tms |}.

Definition T8030_get_kernel_filename (tms : machine_properties) : string :=
  g_strdup (tms_kernel_filename tms).

Definition T8030_set_dtb_filename (sz : property_sizes)
    (tms : machine_properties) (value : string) : machine_properties :=
  {| tms_ramdisk_filename := tms_ramdisk_filename tms;
     tms_kernel_filename := tms_kernel_filename tms;
     tms_dtb_filename := g_strlcpy value (sizeof_dtb_filename sz);
     tms_kern_args := tms_kern_args tms;
     tms_use_ramfb := tms_use_ramfb tms |}.

Definition T8030_get_dtb_filename (tms : machine_properties) : string :=
  g_strdup (tms_dtb_filename tms).

Definition T8030_set_kern_args (sz : property_sizes)
    (tms : machine_properties) (value : string) : machine_properties :=
  {| tms_ramdisk_filename := tms_ramdisk_filename tms;
     tms_kernel_filename := tms_kernel_filename tms;
     tms_dtb_filename := tms_dtb_filename tms;
     tms_kern_args := g_strlcpy value (sizeof_kern_args sz);
     tms_use_ramfb := tms_use_ramfb tms |}.

Definition T8030_get_kern_args (tms : machine_properties) : string :=
  g_strdup (tms_kern_args tms).

(** The note of lines 577-578. *)
Inductive property_note : Type :=
  | NoteRamfbValueNotValid.

Definition set_use_ramfb (b : bool) (tms : machine_properties)
  : machine_properties :=
  {| tms_ramdisk_filename := tms_ramdisk_filename tms;
     tms_kernel_filename := tms_kernel_filename tms;
     tms_dtb_filename := tms_dtb_filename tms;
     tms_kern_args := tms_kern_args tms;
     tms_use_ramfb := b |}.

(** [T8030_set_xnu_ramfb], lines 568-581. *)
Definition T8030_set_xnu_ramfb (tms : machine_properties) (value : string)
  : machine_properties * list property_note :=
  if strcmp_eq0 value "on"
  then (set_use_ramfb true tms, [])
  else
    let notes :=
      if negb (strcmp_eq0 value "off") then [NoteRamfbValueNotValid] else [] in
    (set_use_ramfb false tms, notes).

(** [T8030_get_xnu_ramfb], lines 583-590. *)
Definition T8030_get_xnu_ramfb (tms : machine_properties) : string :=
  if tms_use_ramfb tms then g_strdup "on" else g_strdup "off".

(** A string property: the setter stores at most [n - 1] characters of the
    value, the getter returns what is stored, and a value that fits comes
    back unchanged. *)
Definition copies_with_truncation
    (set : machine_properties -> string -> machine_properties)
    (get : machine_properties -> string) (n : nat) : Prop :=
  forall (tms : machine_properties) (value : string),
    get (set tms value) = string_prefix (n - 1) (c_str value)
    /\ (String.length (get (set tms value)) <= n - 1)%nat
    /\ (c_str value = value -> (String.length value < n)%nat ->
        get (set tms value) = value).

(** [T8030_instance_init], lines 592-618: the five properties of the
    machine object, with the name, the getter and the setter registered for
    each. *)
Inductive machine_property : Type :=
  | PropRamdiskFilename
  | PropKernelFilename
  | PropDtbFilename
  | PropKernCmdArgs
  | PropXnuRamfb.

Definition property_name (p : machine_property) : string :=
  match p with
  | PropRamdiskFilename => "ramdisk-filename"
  | PropKernelFilename => "kernel-filename"
  | PropDtbFilename => "dtb-filename"
  | PropKernCmdArgs => "kern-cmd-args"
  | PropXnuRamfb => "xnu-ramfb"
  end.

Definition property_get (p : machine_property) (tms : machine_properties)
  : string :=
  match p with
  | PropRamdiskFilename => T8030_get_ramdisk_filename tms
  | PropKernelFilename => T8030_get_kernel_filename tms
  | PropDtbFilename => T8030_get_dtb_filename tms
  | PropKernCmdArgs => T8030_get_kern_args tms
  | PropXnuRamfb => T8030_get_xnu_ramfb tms
  end.

Definition property_set (sz : property_sizes) (p : machine_property)
    (tms : machine_properties) (value : string)
  : machine_properties * list property_note :=
  match p with
  | PropRamdiskFilename => (T8030_set_ramdisk_filename sz tms value, [])
  | PropKernelFilename => (T8030_set_kernel_filename sz tms value, [])
  | PropDtbFilename => (T8030_set_dtb_filename sz tms value, [])
  | PropKernCmdArgs => (T8030_set_kern_args sz tms value, [])
  | PropXnuRamfb => T8030_set_xnu_ramfb tms value
  end.

(** The member of [T8030MachineState] behind a property: a character array
    for the four strings, a flag for [xnu-ramfb]. *)
Definition property_member (p : machine_property) (tms : machine_properties)
  : string + bool :=
  match p with
  | PropRamdiskFilename => inl (tms_ramdisk_filename tms)
  | PropKernelFilename => inl (tms_kernel_filename tms)
  | PropDtbFilename => inl (tms_dtb_filename tms)
  | PropKernCmdArgs => inl (tms_kern_args tms)
  | PropXnuRamfb => inr (tms_use_ramfb tms)
  end.

(** What [T8030_memory_setup] reads from the machine object. *)
Definition inputs_of_machine (tms : machine_properties) (e : setup_inputs)
  : setup_inputs :=
  with_use_ramfb (tms_use_ramfb tms)
    (with_ramdisk_filename (tms_ramdisk_filename tms) e).
(** * Properties *)

(** ** 64-bit arithmetic *)

Lemma wrap64_small (z : Z) : 0 <= z < 2 ^ 64 -> wrap64 z = z.
Proof. intros H. unfold wrap64. apply Z.mod_small. exact H. Qed.

Lemma wrap64_range (z : Z) : 0 <= wrap64 z < 2 ^ 64.
Proof. unfold wrap64. apply Z.mod_pos_bound. lia. Qed.

Lemma add64_small (a b : Z) : 0 <= a + b < 2 ^ 64 -> add64 a b = a + b.
Proof. intros H. unfold add64. apply wrap64_small. exact H. Qed.

Lemma sub64_small (a b : Z) : 0 <= a - b < 2 ^ 64 -> sub64 a b = a - b.
Proof. intros H. unfold sub64. apply wrap64_small. exact H. Qed.

Lemma wrap64_idem (z : Z) : wrap64 (wrap64 z) = wrap64 z.
Proof. unfold wrap64. apply Z.mod_mod. lia. Qed.

Lemma add64_wrap_l (a b : Z) : add64 (wrap64 a) b = wrap64 (a + b).
Proof. unfold add64, wrap64. apply Z.add_mod_idemp_l. lia. Qed.

(** Masking with [~0xffff] clears the sixteen low bits of a 64-bit value. *)
Lemma land_not_ffff (x : Z) :
  0 <= x < 2 ^ 64 -> Z.land x (wrap64 (Z.lnot 0xffff)) = 65536 * (x / 65536).
Proof.
  intros [Hlo Hhi].
  replace (wrap64 (Z.lnot 0xffff)) with (Z.shiftl (Z.ones 48) 16)
    by reflexivity.
  replace (65536 * (x / 65536)) with (Z.shiftl (Z.shiftr x 16) 16)
    by (rewrite Z.shiftl_mul_pow2, Z.shiftr_div_pow2 by lia;
        change (2 ^ 16) with 65536; lia).
  apply Z.bits_inj'. intros n Hn.
  rewrite Z.land_spec, !Z.shiftl_spec by lia.
  destruct (Z.ltb_spec n 16) as [Hn16 | Hn16].
  - rewrite !(Z.testbit_neg_r _ (n - 16)) by lia.
    apply andb_false_r.
  - rewrite Z.shiftr_spec by lia.
    replace (n - 16 + 16) with n by lia.
    destruct (Z.ltb_spec n 64) as [Hn64 | Hn64].
    + rewrite Z.ones_spec_low by lia. apply andb_true_r.
    + rewrite Z.ones_spec_high by lia. rewrite andb_false_r. symmetry.
      destruct (Z.eq_dec x 0) as [-> | Hx]; [ now rewrite Z.bits_0 | ].
      apply Z.bits_above_log2; [ lia | ].
      assert (Z.log2 x < 64) by (apply Z.log2_lt_pow2; lia).
      lia.
Qed.

Lemma align_64k_high_eq (a : Z) :
  0 <= a -> a + 0xffff < 2 ^ 64 ->
  align_64k_high a = 65536 * ((a + 65535) / 65536).
Proof.
  intros Ha Hb. unfold align_64k_high.
  rewrite add64_small by lia.
  apply land_not_ffff. lia.
Qed.

(** Rounding up moves an address by less than 64 KiB, never down, and
    leaves a multiple of 64 KiB. *)
Lemma align_64k_high_bounds (a : Z) :
  0 <= a -> a + 0xffff < 2 ^ 64 ->
  a <= align_64k_high a <= a + 0xffff /\ align_64k_high a mod 65536 = 0.
Proof.
  intros Ha Hb. rewrite align_64k_high_eq by assumption.
  pose proof (Z.div_mod (a + 65535) 65536 ltac:(lia)) as Hdm.
  pose proof (Z.mod_pos_bound (a + 65535) 65536 ltac:(lia)) as Hm.
  split; [ lia | ].
  rewrite Z.mul_comm. apply Z.mod_mul. lia.
Qed.

Lemma align_64k_high_range (a : Z) : 0 <= align_64k_high a < 2 ^ 64.
Proof.
  unfold align_64k_high.
  pose proof (wrap64_range (a + 0xffff)) as Hr. fold (add64 a 0xffff) in Hr.
  split.
  - apply Z.land_nonneg. left. lia.
  - assert (Z.land (add64 a 65535) (wrap64 (Z.lnot 65535)) <= add64 a 65535).
    { rewrite land_not_ffff by exact Hr.
      pose proof (Z.div_mod (add64 a 65535) 65536 ltac:(lia)).
      pose proof (Z.mod_pos_bound (add64 a 65535) 65536 ltac:(lia)). lia. }
    lia.
Qed.

(** ** The register bank *)

Lemma cpreg_var_set_same (name : cpreg) (value : Z) (tcpu : T8030CPU) :
  cpreg_var (set_cpreg_var name value tcpu) name = value.
Proof. cbn. destruct (decide (name = name)); [ reflexivity | contradiction ]. Qed.

Lemma cpreg_var_set_other (name r : cpreg) (value : Z) (tcpu : T8030CPU) :
  r <> name -> cpreg_var (set_cpreg_var name value tcpu) r = cpreg_var tcpu r.
Proof. intros Hne. cbn. destruct (decide (r = name)); [ contradiction | reflexivity ]. Qed.

Lemma cpu_id_add_cpregs (tcpu : T8030CPU) :
  cpu_id (T8030_add_cpregs tcpu) = cpu_id tcpu.
Proof. reflexivity. Qed.

(** What each slot holds after [T8030_add_cpregs]: the assigned value for
    the fourteen registers of lines 173-186, the old value for the rest. *)
Lemma add_cpregs_slot (tcpu : T8030CPU) (r : cpreg) :
  cpreg_var (T8030_add_cpregs tcpu) r =
    if assigned_by_add_cpregs r
    then (if decide (r = ARM64_REG_APCTL_EL1) then 2 else 0)
    else cpreg_var tcpu r.
Proof. destruct r; reflexivity. Qed.

Lemma add_cpregs_bank (tcpu : T8030CPU) :
  (forall r, assigned_by_add_cpregs r = false -> cpreg_var tcpu r = 0) ->
  forall r, cpreg_var (T8030_add_cpregs tcpu) r =
              if decide (r = ARM64_REG_APCTL_EL1) then 2 else 0.
Proof.
  intros Hzero r. rewrite add_cpregs_slot.
  destruct (assigned_by_add_cpregs r) eqn:Hr; [ reflexivity | ].
  rewrite (Hzero r Hr).
  destruct (decide (r = ARM64_REG_APCTL_EL1)) as [-> | _];
    [ discriminate Hr | reflexivity ].
Qed.

(** Every core the loop of [T8030_cpu_setup] reaches gets its index as
    identifier and, in a machine state that was zero on entry, the bank of
    [add_cpregs_bank]. *)
Lemma T8030_cpu_setup_core (smp_cpus : nat) (cpus : list T8030CPU)
    (i : nat) (c : T8030CPU) :
  Forall (fun c0 => forall r, cpreg_var c0 r = 0) cpus ->
  (i < smp_cpus)%nat ->
  T8030_cpu_setup smp_cpus cpus !! i = Some c ->
  cpu_id c = Z.of_nat i
  /\ forall r, T8030_cpreg_read r c =
                 if decide (r = ARM64_REG_APCTL_EL1) then 2 else 0.
Proof.
  intros Hall Hi Hlook. unfold T8030_cpu_setup in Hlook.
  rewrite list_lookup_imap in Hlook.
  destruct (cpus !! i) as [c0 |] eqn:Hc0; [ | discriminate Hlook ].
  assert (Hlt : (i <? smp_cpus)%nat = true) by (apply Nat.ltb_lt; exact Hi).
  rewrite fmap_Some in Hlook. destruct Hlook as (c1 & [= <-] & ->).
  rewrite Hlt.
  split; [ reflexivity | ].
  intros r. unfold T8030_cpreg_read. apply add_cpregs_bank.
  intros r0 _. cbn.
  rewrite Forall_forall in Hall. apply Hall.
  eapply list_elem_of_lookup_2. exact Hc0.
Qed.

(** [all_cpregs] lists every register, once. *)
Lemma all_cpregs_complete (r : cpreg) : r ∈ all_cpregs.
Proof. destruct r; unfold all_cpregs; set_solver. Qed.

Lemma all_cpregs_NoDup : NoDup all_cpregs.
Proof. apply (bool_decide_unpack _). vm_compute. exact I. Qed.

(** The table registered with the CPU names every register except
    [L2ACTLR_EL1] once, and no two entries share an encoding. *)
Lemma T8030_cp_reginfo_tcg_names :
  NoDup (map snd T8030_cp_reginfo_tcg)
  /\ NoDup (map fst T8030_cp_reginfo_tcg)
  /\ forall r, r ∈ map fst T8030_cp_reginfo_tcg <-> r <> L2ACTLR_EL1.
Proof.
  split; [ apply (bool_decide_unpack _); vm_compute; exact I | ].
  split; [ apply (bool_decide_unpack _); vm_compute; exact I | ].
  intros r. split.
  - intros Hin ->. revert Hin.
    apply (bool_decide_unpack (L2ACTLR_EL1 ∉ map fst T8030_cp_reginfo_tcg)).
    vm_compute. exact I.
  - intros Hne. destruct r; try contradiction;
      apply (bool_decide_unpack _); vm_compute; exact I.
Qed.

(** C1 (as amended).  A value written to a register through the
    system-register write handler is what the system-register read handler
    of the same register returns; a read through the MMIO window of the core
    returns 0 at every address and for every access size, whatever was
    written, and a write through the window leaves the core as it was. *)
Theorem cpreg_write_then_read (tcpu : T8030CPU) (r : cpreg) (v : Z) :
  T8030_cpreg_read r (T8030_cpreg_write r tcpu v) = v
  /\ (forall addr size,
        fst (cpu_impl_reg_read (T8030_cpreg_write r tcpu v) addr size) = 0)
  /\ (forall addr data size,
        fst (cpu_impl_reg_write tcpu addr data size) = tcpu).
Proof.
  split; [ | split ].
  - unfold T8030_cpreg_read, T8030_cpreg_write. apply cpreg_var_set_same.
  - intros addr size. reflexivity.
  - intros addr data size. reflexivity.
Qed.

(** C1 (counterexample).  There is no way to assign window offsets to the
    registers under which an MMIO read returns the value written through the
    system-register path: after writing 1 to [ARM64_REG_HID11] of a zeroed
    core, the MMIO read returns 0 at whichever offset is tried. *)
Lemma mmio_read_ignores_cpreg_write :
  ~ exists (window_offset : cpreg -> Z) (size : Z),
      forall (tcpu : T8030CPU) (r : cpreg) (v : Z),
        fst (cpu_impl_reg_read (T8030_cpreg_write r tcpu v)
                               (window_offset r) size) = v.
Proof.
  intros (window_offset & size & Hclaim).
  specialize (Hclaim (zeroed_cpu 0) ARM64_REG_HID11 1).
  cbn in Hclaim. discriminate Hclaim.
Qed.

(** C8.  After the per-core setup every register of the bank of a core
    holds zero, except exactly one, [ARM64_REG_APCTL_EL1], which holds 2.
    This is so for the bank [T8030_add_cpregs] makes of the zero-filled entry
    of a core, whatever its identifier, and so for every core that
    [T8030_cpu_setup] sets up in the zero-filled machine object, whatever
    the configured number of cores and the length of the array. *)
Theorem T8030_add_cpregs_initial_bank (smp_cpus max_cpu : nat) :
  (forall (id : Z) (r : cpreg),
     T8030_cpreg_read r (T8030_add_cpregs (zeroed_cpu id))
     = if decide (r = ARM64_REG_APCTL_EL1) then 2 else 0)
  /\ (forall (id : Z) (r : cpreg),
        T8030_cpreg_read r (T8030_add_cpregs (zeroed_cpu id)) <> 0
        <-> r = ARM64_REG_APCTL_EL1)
  /\ Forall (fun c => forall r,
                T8030_cpreg_read r c
                = if decide (r = ARM64_REG_APCTL_EL1) then 2 else 0)
            (take smp_cpus
                  (T8030_cpu_setup smp_cpus (zero_filled_cpus max_cpu)))
  /\ length (take smp_cpus
                  (T8030_cpu_setup smp_cpus (zero_filled_cpus max_cpu)))
     = Nat.min smp_cpus max_cpu.
Proof.
  assert (Hbank : forall (id : Z) (r : cpreg),
            T8030_cpreg_read r (T8030_add_cpregs (zeroed_cpu id))
            = if decide (r = ARM64_REG_APCTL_EL1) then 2 else 0).
  { intros id r. unfold T8030_cpreg_read. apply add_cpregs_bank.
    intros r0 _. reflexivity. }
  split; [ exact Hbank | ].
  split.
  { intros id r. rewrite Hbank.
    destruct (decide (r = ARM64_REG_APCTL_EL1)) as [Heq | Hne].
    - split; [ intros _; exact Heq | intros _; discriminate ].
    - split; [ intros H0; contradiction H0; reflexivity
             | intros Heq; contradiction ]. }
  split.
  - apply Forall_forall. intros c Hc.
    apply list_elem_of_lookup in Hc as [i Hi].
    apply lookup_take_Some in Hi as [Hi Hlt].
    apply (T8030_cpu_setup_core smp_cpus (zero_filled_cpus max_cpu) i c);
      [ | exact Hlt | exact Hi ].
    unfold zero_filled_cpus. apply Forall_replicate. intros r. reflexivity.
  - rewrite length_take. unfold T8030_cpu_setup, zero_filled_cpus.
    rewrite length_imap, length_replicate. reflexivity.
Qed.

(** ** The kernel patches *)

Lemma overlay_compose (f h : gmap Z Z -> gmap Z Z) :
  overlay f -> overlay h -> overlay (fun m => h (f m)).
Proof.
  intros [Wf Hf] [Wh Hh]. exists (Wh ∪ Wf). intros m k.
  rewrite Hh, Hf, lookup_union.
  destruct (Wh !! k), (Wf !! k), (m !! k); reflexivity.
Qed.

Lemma overlay_idempotent (f : gmap Z Z -> gmap Z Z) (m : gmap Z Z) :
  overlay f -> f (f m) = f m.
Proof.
  intros [W HW]. apply map_eq. intros k. rewrite !HW.
  destruct (W !! k), (m !! k); reflexivity.
Qed.


Lemma overlay_address_space_write (addr : Z) (buf : list Z) :
  overlay (fun m => address_space_write m addr buf).
Proof.
  revert addr. induction buf as [| b buf IH]; intros addr.
  - exists ∅. intros m k. rewrite lookup_empty. reflexivity.
  - destruct (IH (add64 addr 1)) as [W HW].
    exists (W ∪ {[ addr := b ]}). intros m k. cbn [address_space_write].
    rewrite HW, lookup_union.
    destruct (decide (addr = k)) as [-> | Hne].
    + rewrite lookup_alter_eq, lookup_singleton_eq.
      destruct (W !! k), (m !! k); reflexivity.
    + rewrite lookup_alter_ne, lookup_singleton_ne by exact Hne.
      destruct (W !! k), (m !! k); reflexivity.
Qed.

Lemma overlay_address_space_rw (addr : Z) (buf : list Z) (len : nat)
    (is_write : bool) :
  overlay (fun m => address_space_rw m addr buf len is_write).
Proof.
  unfold address_space_rw. destruct is_write.
  - apply overlay_address_space_write.
  - exists ∅. intros m k. rewrite lookup_empty. reflexivity.
Qed.

Lemma overlay_T8030_patch_kernel (g : xnu_globals) :
  overlay (T8030_patch_kernel g).
Proof.
  pose proof (overlay_address_space_rw (vtop_static g 0xFFFFFFF007B4A53C)
                (bytes_of_uint32 g_ret_inst) 4 true) as Hstash.
  pose proof (overlay_address_space_rw (vtop_static g 0xFFFFFFF007B4AECC)
                (bytes_of_uint32 g_ret_inst) 4 true) as Hlockdown.
  pose proof (overlay_address_space_rw (vtop_static g 0xFFFFFFF00811CE98)
                (bytes_of_uint32 g_nop_inst) 4 true) as Hgxf.
  pose proof (overlay_address_space_rw (vtop_static g 0xFFFFFFF007B5A5A8)
                (bytes_of_uint32 g_nop_inst) 4 true) as Hppl.
  exact (overlay_compose _ _
           (overlay_compose _ _ (overlay_compose _ _ Hstash Hlockdown) Hgxf)
           Hppl).
Qed.

(** The patches do store something: with the bases of the example machine,
    the first byte of the return instruction lands at the translation of
    [rorgn_lockdown] when RAM backs that address, and is lost when nothing
    does. *)
Example T8030_patch_kernel_stores :
  T8030_patch_kernel (MkGlobals 0xFFFFFFF000000000 T8030_PHYS_BASE)
                     {[ 0x47B4AECC := 0 ]} !! 0x47B4AECC = Some 0xc0
  /\ T8030_patch_kernel (MkGlobals 0xFFFFFFF000000000 T8030_PHYS_BASE) ∅
       !! 0x47B4AECC = None.
Proof. split; vm_compute; reflexivity. Qed.

(** C9.  Applying [T8030_patch_kernel] twice in succession to an address
    space leaves guest memory exactly as applying it once does. *)
Theorem T8030_patch_kernel_idempotent (g : xnu_globals) (nsas : gmap Z Z) :
  T8030_patch_kernel g (T8030_patch_kernel g nsas) = T8030_patch_kernel g nsas.
Proof. apply overlay_idempotent. apply overlay_T8030_patch_kernel. Qed.

(** ** The boot-image layout *)

Lemma Sorted_cons2 {A} (R : A -> A -> Prop) (a b : A) (l : list A) :
  Sorted R (a :: b :: l) <-> R a b /\ Sorted R (b :: l).
Proof.
  split.
  - intros H. apply Sorted_inv in H as [Hs Hh].
    apply HdRel_inv in Hh. split; assumption.
  - intros [Hab Hs]. constructor; [ exact Hs | constructor; exact Hab ].
Qed.

Ltac sorted_by_lia :=
  repeat first [ apply Sorted_cons | apply HdRel_cons
               | apply Sorted_nil | apply HdRel_nil ];
  lia.

Section Layout.

Variable abi : xnu_abi.
Variable e : setup_inputs.

Local Notation "'ML'" := (memory_layout abi e).
Local Notation "'has_ramdisk'" :=
  (negb (first_char (ramdisk_filename e) =? 0)).

(** The history of the cursor, written with the fields that record its
    values. *)
Lemma history_fields :
  phys_ptr_history ML =
    [ T8030_PHYS_BASE; trustcache_pa ML;
      add64 (trustcache_pa ML) (align_64k_high (trustcache_size ML));
      dtb_pa ML;
      add64 (dtb_pa ML) (align_64k_high T8030_MAX_DEVICETREE_SIZE) ]
    ++ (if has_ramdisk then [ kbootargs_pa ML ] else [])
    ++ [ extra_data_pa ML; phys_ptr ML ].
Proof. reflexivity. Qed.

(** Without wrap-around every address of the layout is the plain sum of the
    address before it and a rounded size, and every rounded size lies
    between the size and the size plus 0xffff. *)
Lemma layout_chain :
  no_wraparound abi e ->
  trustcache_pa ML = 0x42000000
  /\ (trustcache_size ML <= align_64k_high (trustcache_size ML)
      <= trustcache_size ML + 0xffff)
  /\ add64 (trustcache_pa ML) (align_64k_high (trustcache_size ML))
     = 0x42000000 + align_64k_high (trustcache_size ML)
  /\ (0 <= vtop_static (globals ML) (kernel_high ML)
      /\ vtop_static (globals ML) (kernel_high ML) <= dtb_pa ML
         <= vtop_static (globals ML) (kernel_high ML) + 0xffff)
  /\ add64 (dtb_pa ML) (align_64k_high T8030_MAX_DEVICETREE_SIZE)
     = dtb_pa ML + 0x40000
  /\ (0 <= ramdisk_size ML <= ramdisk_request e)
  /\ ramdisk_file_dev_pa ML = (if has_ramdisk then dtb_pa ML + 0x40000 else 0)
  /\ kbootargs_pa ML = dtb_pa ML + 0x40000 + ramdisk_size ML
  /\ (sizeof_xnu_arm64_boot_args abi
      <= align_64k_high (sizeof_xnu_arm64_boot_args abi)
      <= sizeof_xnu_arm64_boot_args abi + 0xffff)
  /\ extra_data_pa ML
     = kbootargs_pa ML + align_64k_high (sizeof_xnu_arm64_boot_args abi)
  /\ (sizeof_AllocatedData abi <= align_64k_high (sizeof_AllocatedData abi)
      <= sizeof_AllocatedData abi + 0xffff)
  /\ phys_ptr ML
     = extra_data_pa ML + align_64k_high (sizeof_AllocatedData abi).
Proof.
  unfold no_wraparound, ramdisk_request, memory_layout.
  cbn [globals kernel_high trustcache_pa trustcache_size dtb_pa ramdisk_size
       ramdisk_file_dev_pa kbootargs_pa extra_data_pa phys_ptr].
  change T8030_PHYS_BASE with 0x40000000.
  change (align_64k_high T8030_MAX_DEVICETREE_SIZE) with 0x40000.
  change T8030_MAX_DEVICETREE_SIZE with 0x40000.
  change (add64 0x40000000 (align_64k_high 0x2000000)) with 0x42000000.
  set (v := vtop_static _ _).
  set (has := has_ramdisk).
  set (T := align_64k_high (trustcache_file_size e)).
  set (B := align_64k_high (sizeof_xnu_arm64_boot_args abi)).
  set (X := align_64k_high (sizeof_AllocatedData abi)).
  set (K := align_64k_high v).
  intros (Htc & Hrd & Hba & Had & Hfit1 & Hfit2).
  assert (Hv : 0 <= v < 2 ^ 64) by apply wrap64_range.
  assert (Hrq : 0 <= (if has then ramdisk_file_size e + 65535 else 0))
    by (destruct has; lia).
  destruct (align_64k_high_bounds (trustcache_file_size e)) as [HT _];
    [ lia .. | fold T in HT ].
  destruct (align_64k_high_bounds v) as [HK _]; [ lia .. | fold K in HK ].
  destruct (align_64k_high_bounds (sizeof_xnu_arm64_boot_args abi))
    as [HB _]; [ lia .. | fold B in HB ].
  destruct (align_64k_high_bounds (sizeof_AllocatedData abi)) as [HX _];
    [ lia .. | fold X in HX ].
  assert (HR : 0 <= (if has then align_64k_high (ramdisk_file_size e) else 0)
               <= (if has then ramdisk_file_size e + 65535 else 0)).
  { destruct has; [ | lia ].
    destruct (align_64k_high_bounds (ramdisk_file_size e)) as [HR _]; lia. }
  set (R := if has then align_64k_high (ramdisk_file_size e) else 0) in *.
  assert (HD : add64 K 0x40000 = K + 0x40000) by (apply add64_small; lia).
  assert (HP : (if has then add64 (add64 K 0x40000) R else add64 K 0x40000)
               = K + 0x40000 + R).
  { rewrite HD. subst R. destruct has; [ apply add64_small | ]; lia. }
  rewrite HP, HD.
  assert (HE : add64 (K + 0x40000 + R) B = K + 0x40000 + R + B)
    by (apply add64_small; lia).
  rewrite HE.
  repeat split; try lia; try reflexivity.
  - apply add64_small; lia.
  - apply add64_small; lia.
Qed.

(** C2 (as amended).  As long as no addition on the cursor wraps around
    [2^64], [phys_ptr] never decreases from its initialisation to the end of
    the trust cache (lines 277-289), and never decreases from the end of the
    kernel on (lines 300-339).  Line 300 assigns the cursor the rounded
    physical end of the kernel whatever it held, so the whole history is
    non-decreasing exactly when that address is not below the cursor reached
    after the trust cache. *)
Theorem phys_ptr_history_sorted :
  no_wraparound abi e ->
  Sorted Z.le (take 3 (phys_ptr_history ML))
  /\ Sorted Z.le (drop 3 (phys_ptr_history ML))
  /\ (Sorted Z.le (phys_ptr_history ML)
      <-> add64 (trustcache_pa ML) (align_64k_high (trustcache_size ML))
          <= dtb_pa ML).
Proof.
  intros Hfit.
  destruct (layout_chain Hfit)
    as (Htc & HT & Hend & Hv & Hdt & HR & _ & Hkb & HB & Hex & HX & Hpp).
  destruct Hfit as (Htc0 & Hrd0 & Hba0 & Had0 & _ & _).
  rewrite history_fields, Hend, Hdt, Htc.
  change (trustcache_size ML) with (trustcache_file_size e) in *.
  change T8030_PHYS_BASE with 0x40000000.
  cbn [take drop app].
  set (tl := dtb_pa ML :: _).
  assert (Htl : Sorted Z.le tl).
  { subst tl. unfold ramdisk_request in HR.
    destruct has_ramdisk; cbn [app]; sorted_by_lia. }
  split; [ sorted_by_lia | split; [ exact Htl | ] ].
  rewrite 2!Sorted_cons2. subst tl. rewrite Sorted_cons2.
  intuition lia.
Qed.

(** C3 (as amended).  The placed regions are pairwise disjoint when no
    addition wraps around [2^64], the kernel span lies above the virtual base
    with its translation below [2^64], and the trust cache, rounded, ends at
    or before the physical start of the kernel. *)
Theorem boot_regions_disjoint :
  no_wraparound abi e ->
  kernel_span_ok e ->
  trustcache_pa ML + align_64k_high (trustcache_size ML)
    <= vtop_static (globals ML) (kernel_low ML) ->
  ForallOrdPairs regions_disjoint (boot_regions abi e).
Proof.
  intros Hfit (Hlow & Hhigh & Hphys) Htc_end.
  destruct (layout_chain Hfit)
    as (Htc & HT & _ & Hv & _ & HR & Hrd & Hkb & HB & Hex & HX & _).
  destruct Hfit as (Htc0 & Hrd0 & Hba0 & Had0 & _ & _).
  unfold boot_regions. cbv zeta.
  change (align_64k_high T8030_MAX_DEVICETREE_SIZE) with 0x40000.
  change (kernel_high ML) with (macho_kernel_high e) in *.
  change (kernel_low ML) with (macho_kernel_low e) in *.
  change (globals ML) with (MkGlobals (macho_virt_base e) T8030_PHYS_BASE) in *.
  assert (Hsz : sub64 (macho_kernel_high e) (macho_kernel_low e)
                = macho_kernel_high e - macho_kernel_low e).
  { apply sub64_small. unfold T8030_PHYS_BASE in Hphys. lia. }
  assert (Hvtop : forall va, macho_virt_base e <= va <= macho_kernel_high e ->
            vtop_static (MkGlobals (macho_virt_base e) T8030_PHYS_BASE) va
            = va - macho_virt_base e + T8030_PHYS_BASE).
  { intros va Hva. unfold vtop_static. cbn [g_virt_base g_phys_base].
    unfold T8030_PHYS_BASE in *.
    rewrite sub64_small by lia. apply add64_small. lia. }
  rewrite Hsz. rewrite (Hvtop (macho_kernel_low e)) in * by lia.
  rewrite (Hvtop (macho_kernel_high e)) in Hv by lia.
  unfold ramdisk_request in HR.
  destruct has_ramdisk; cbn [app];
    repeat match goal with
           | |- ForallOrdPairs _ _ => constructor
           | |- Forall _ _ => constructor
           end;
    unfold regions_disjoint; cbn [region_base region_size];
    unfold T8030_PHYS_BASE in *; left; lia.
Qed.

(** C4 (as amended).  The DRAM size is, in 64-bit arithmetic, the distance
    from [T8030_PHYS_BASE] to the cursor taken before the scratch data is
    reserved, plus the configured RAM size minus [used_ram_for_blobs]; and
    [used_ram_for_blobs] counts the kernel span, the device tree and the
    boot arguments, each rounded as in the source.  The trust cache and
    the ramdisk are not counted. *)
Theorem mem_size_formula :
  mem_size ML
    = add64 (sub64 (allocated_ram_pa ML) T8030_PHYS_BASE)
            (sub64 (ram_size e) (used_ram_for_blobs ML))
  /\ dram_size ML = mem_size ML
  /\ allocated_ram_pa ML = extra_data_pa ML
  /\ used_ram_for_blobs ML
     = wrap64 ((align_64k_high (macho_kernel_high e) - macho_kernel_low e)
               + align_64k_high T8030_MAX_DEVICETREE_SIZE
               + align_64k_high (sizeof_xnu_arm64_boot_args abi)).
Proof.
  split; [ reflexivity | ]. split; [ reflexivity | ]. split; [ reflexivity | ].
  unfold memory_layout. cbn [used_ram_for_blobs].
  unfold sub64 at 1.
  change (add64 0 (wrap64 ?z)) with (wrap64 (0 + wrap64 z)).
  rewrite Z.add_0_l, wrap64_idem, !add64_wrap_l. reflexivity.
Qed.

(** C5 (as amended).  With an empty ramdisk filename the ramdisk address and
    size are 0, the boot arguments start exactly at the reserved end of the
    device tree, and the scratch data starts the rounded size of the
    boot-argument structure after that (addresses modulo [2^64]). *)
Theorem no_ramdisk_layout :
  ramdisk_filename e = EmptyString ->
  ramdisk_file_dev_pa ML = 0
  /\ ramdisk_size ML = 0
  /\ kbootargs_pa ML
     = add64 (dtb_pa ML) (align_64k_high T8030_MAX_DEVICETREE_SIZE)
  /\ extra_data_pa ML
     = add64 (kbootargs_pa ML)
             (align_64k_high (sizeof_xnu_arm64_boot_args abi)).
Proof.
  intros Hname. unfold memory_layout.
  cbn [ramdisk_file_dev_pa ramdisk_size kbootargs_pa extra_data_pa dtb_pa].
  rewrite Hname. cbn [first_char Z.eqb negb].
  repeat split; reflexivity.
Qed.

(** Whatever the size of the boot-argument structure, as long as it is
    positive, the boot arguments of a machine without ramdisk start below
    the reserved end of the device tree plus that rounded size. *)
Lemma bootargs_base_below_rounded_size :
  no_wraparound abi e ->
  0 < sizeof_xnu_arm64_boot_args abi ->
  ramdisk_filename e = EmptyString ->
  kbootargs_pa ML
  < dtb_pa ML + align_64k_high T8030_MAX_DEVICETREE_SIZE
    + align_64k_high (sizeof_xnu_arm64_boot_args abi).
Proof.
  intros Hfit Hpos Hname.
  destruct (layout_chain Hfit) as (_ & _ & _ & _ & _ & HR & _ & Hkb & HB & _).
  unfold ramdisk_request in HR. rewrite Hname in HR.
  cbn [first_char Z.eqb negb] in HR.
  change (align_64k_high T8030_MAX_DEVICETREE_SIZE) with 0x40000. lia.
Qed.

(** C6.  When the trust-cache file loads with size 0x1000, the trust cache
    is placed at [T8030_PHYS_BASE + align_64k_high 0x2000000], which is the
    second value of the cursor, and the next value of the cursor, after the
    load, is [trustcache_pa + align_64k_high 0x1000]. *)
Theorem trustcache_placement :
  trustcache_file_size e = 0x1000 ->
  trustcache_pa ML = T8030_PHYS_BASE + align_64k_high 0x2000000
  /\ phys_ptr_history ML !! 1%nat = Some (trustcache_pa ML)
  /\ phys_ptr_history ML !! 2%nat
     = Some (trustcache_pa ML + align_64k_high 0x1000).
Proof.
  intros Hsize.
  split; [ reflexivity | ]. split; [ reflexivity | ].
  rewrite history_fields. cbn [app lookup list_lookup].
  change (trustcache_size ML) with (trustcache_file_size e).
  rewrite Hsize. reflexivity.
Qed.

(** C7.  When the encoder reports a size above [T8030_MAX_DEVICETREE_SIZE]
    the build stops on the assertion of line 355; when the size is at most
    the maximum the build returns, with the layout computed before and the
    reported size. *)
Theorem dtb_size_assertion :
  (T8030_MAX_DEVICETREE_SIZE < dtb_encoded_size e ->
   T8030_memory_setup abi e = inl AssertDtbSize)
  /\ (dtb_encoded_size e <= T8030_MAX_DEVICETREE_SIZE ->
      exists o, T8030_memory_setup abi e = inr o
                /\ final_layout o = ML
                /\ dtb_size o = dtb_encoded_size e).
Proof.
  unfold T8030_memory_setup. cbv zeta.
  destruct (Z.leb_spec (dtb_encoded_size e) T8030_MAX_DEVICETREE_SIZE)
    as [Hle | Hgt].
  - split; [ lia | ]. intros _. eexists. repeat split.
  - split; [ reflexivity | lia ].
Qed.

(** C10.  Two runs that differ only in [use_ramfb] compute the same
    boot-argument base, scratch-data base, top of kernel data, DRAM base and
    DRAM size, and hand the same values on; the scratch data is reserved
    with the rounded size of [AllocatedData] in both.  The flag decides only
    whether a framebuffer device is defined inside the scratch data and
    whether the video descriptor of the boot arguments is filled. *)
Theorem use_ramfb_keeps_layout (b1 b2 : bool) :
  layout_outputs (memory_layout abi (with_use_ramfb b1 e))
    = layout_outputs (memory_layout abi (with_use_ramfb b2 e))
  /\ same_handover (T8030_memory_setup abi (with_use_ramfb b1 e))
                   (T8030_memory_setup abi (with_use_ramfb b2 e))
  /\ top_of_kernel_data_pa (memory_layout abi (with_use_ramfb b1 e))
     = add64 (extra_data_pa (memory_layout abi (with_use_ramfb b1 e)))
             (align_64k_high (sizeof_AllocatedData abi))
  /\ ramfb_device (memory_layout abi (with_use_ramfb b1 e))
     = (if b1
        then Some (add64 (extra_data_pa ML) (offsetof_AllocatedData_ramfb abi))
        else None)
  /\ v_bootargs (memory_layout abi (with_use_ramfb b1 e))
     = (if b1
        then VideoOfRamfb (add64 (extra_data_pa ML)
                                 (offsetof_AllocatedData_ramfb abi))
        else VideoZero).
Proof.
  split; [ reflexivity | ].
  split.
  { unfold same_handover, T8030_memory_setup. cbv zeta.
    cbn [dtb_encoded_size with_use_ramfb].
    destruct (dtb_encoded_size e <=? T8030_MAX_DEVICETREE_SIZE);
      [ repeat split | reflexivity ]. }
  split; [ reflexivity | ].
  split; destruct b1; reflexivity.
Qed.

End Layout.

(** ** The layout on the example machines *)

(** C2 (witness): the machine with a ramdisk. *)
Lemma phys_ptr_history_sorted_witness :
  Sorted Z.le
    (take 3 (phys_ptr_history
               (memory_layout example_abi example_inputs_ramdisk)))
  /\ Sorted Z.le
       (drop 3 (phys_ptr_history
                  (memory_layout example_abi example_inputs_ramdisk)))
  /\ (Sorted Z.le
        (phys_ptr_history (memory_layout example_abi example_inputs_ramdisk))
      <-> add64 (trustcache_pa
                   (memory_layout example_abi example_inputs_ramdisk))
                (align_64k_high
                   (trustcache_size
                      (memory_layout example_abi example_inputs_ramdisk)))
          <= dtb_pa (memory_layout example_abi example_inputs_ramdisk)).
Proof.
  apply (phys_ptr_history_sorted example_abi example_inputs_ramdisk).
  unfold no_wraparound. vm_compute. intuition discriminate.
Defined.

(** C2 (counterexample).  For a 32 MiB kernel whose span starts at its
    virtual base, the cursor stands at 0x42010000 after the trust cache and
    line 300 moves it back to 0x42000000. *)
Lemma phys_ptr_drops_at_kernel_step :
  phys_ptr_history (memory_layout example_abi low_kernel_inputs)
  = [0x40000000; 0x42000000; 0x42010000; 0x42000000; 0x42040000;
     0x42050000; 0x42060000]
  /\ ~ Sorted Z.le
         (phys_ptr_history (memory_layout example_abi low_kernel_inputs)).
Proof.
  split; [ reflexivity | ].
  change (phys_ptr_history (memory_layout example_abi low_kernel_inputs))
    with [0x40000000; 0x42000000; 0x42010000; 0x42000000; 0x42040000;
          0x42050000; 0x42060000].
  rewrite !Sorted_cons2. lia.
Qed.

(** The additions of the cursor are those of [hwaddr]: with a trust-cache
    file whose end reaches [2^64] the cursor wraps to 0 on line 289. *)
Lemma phys_ptr_wraps_on_huge_trustcache :
  take 3 (phys_ptr_history (memory_layout example_abi huge_trustcache_inputs))
  = [0x40000000; 0x42000000; 0].
Proof. vm_compute. reflexivity. Qed.

(** C3 (witness): the machine with a ramdisk. *)
Lemma boot_regions_disjoint_witness :
  ForallOrdPairs regions_disjoint
    (boot_regions example_abi example_inputs_ramdisk).
Proof.
  apply (boot_regions_disjoint example_abi example_inputs_ramdisk).
  - unfold no_wraparound. vm_compute. intuition discriminate.
  - unfold kernel_span_ok. vm_compute. intuition discriminate.
  - vm_compute. discriminate.
Defined.

(** C3 (counterexample).  For a 32 MiB kernel whose span starts at its
    virtual base, the device tree is placed at 0x42000000, the base of the
    trust cache: the two regions overlap. *)
Lemma trustcache_overlaps_devicetree :
  boot_regions example_abi low_kernel_inputs !! 0%nat
    = Some (MkRegion TrustCache 0x42000000 0x10000)
  /\ boot_regions example_abi low_kernel_inputs !! 2%nat
     = Some (MkRegion DeviceTreeBlob 0x42000000 0x40000)
  /\ ~ regions_disjoint (MkRegion TrustCache 0x42000000 0x10000)
                        (MkRegion DeviceTreeBlob 0x42000000 0x40000)
  /\ ~ ForallOrdPairs regions_disjoint
         (boot_regions example_abi low_kernel_inputs).
Proof.
  assert (Hov : ~ regions_disjoint (MkRegion TrustCache 0x42000000 0x10000)
                        (MkRegion DeviceTreeBlob 0x42000000 0x40000)).
  { unfold regions_disjoint. cbn [region_base region_size]. lia. }
  split; [ reflexivity | ]. split; [ reflexivity | ]. split; [ exact Hov | ].
  intros Hall.
  change (boot_regions example_abi low_kernel_inputs)
    with [ MkRegion TrustCache 0x42000000 0x10000;
           MkRegion KernelSpan 0x40000000 0x2000000;
           MkRegion DeviceTreeBlob 0x42000000 0x40000;
           MkRegion BootArgsStruct 0x42040000 0x10000;
           MkRegion ExtraScratchData 0x42050000 0x10000 ] in Hall.
  inversion Hall as [| a l Hfa _]; subst.
  inversion Hfa as [| ? ? _ Hfa']; subst.
  inversion Hfa' as [| ? ? Hbad _]; subst.
  exact (Hov Hbad).
Qed.

(** C4 (counterexample).  On the machine with a 4 KiB trust cache and a
    ramdisk of 0x12345 bytes the bookkeeping holds 0x205c000, while the five
    blobs placed before the scratch data take 0x208c000 together; the DRAM
    size is 0x47024000, not the 0x46ff4000 that the sum over all blobs
    gives. *)
Lemma used_ram_for_blobs_skips_trustcache_and_ramdisk :
  used_ram_for_blobs (memory_layout example_abi example_inputs_ramdisk)
    = 0x205c000
  /\ bytes_of_all_blobs example_abi example_inputs_ramdisk = 0x208c000
  /\ mem_size (memory_layout example_abi example_inputs_ramdisk) = 0x47024000
  /\ add64 (sub64 (allocated_ram_pa
                     (memory_layout example_abi example_inputs_ramdisk))
                  T8030_PHYS_BASE)
           (sub64 (ram_size example_inputs_ramdisk)
                  (bytes_of_all_blobs example_abi example_inputs_ramdisk))
     = 0x46ff4000.
Proof. repeat split; vm_compute; reflexivity. Qed.

(** C5 (witness): the machine without ramdisk. *)
Lemma no_ramdisk_layout_witness :
  ramdisk_file_dev_pa (memory_layout example_abi example_inputs) = 0
  /\ ramdisk_size (memory_layout example_abi example_inputs) = 0
  /\ kbootargs_pa (memory_layout example_abi example_inputs)
     = add64 (dtb_pa (memory_layout example_abi example_inputs))
             (align_64k_high T8030_MAX_DEVICETREE_SIZE)
  /\ extra_data_pa (memory_layout example_abi example_inputs)
     = add64 (kbootargs_pa (memory_layout example_abi example_inputs))
             (align_64k_high (sizeof_xnu_arm64_boot_args example_abi)).
Proof.
  apply (no_ramdisk_layout example_abi example_inputs). reflexivity.
Defined.

(** C5 (counterexample).  On the machine without ramdisk the reserved end of
    the device tree is 0x49050000 and the boot arguments start there, not
    the rounded size of the boot-argument structure (0x10000) later. *)
Lemma bootargs_base_is_devicetree_end :
  ramdisk_filename example_inputs = EmptyString
  /\ dtb_pa (memory_layout example_abi example_inputs)
     + align_64k_high T8030_MAX_DEVICETREE_SIZE = 0x49050000
  /\ align_64k_high (sizeof_xnu_arm64_boot_args example_abi) = 0x10000
  /\ kbootargs_pa (memory_layout example_abi example_inputs) = 0x49050000
  /\ kbootargs_pa (memory_layout example_abi example_inputs)
     <> dtb_pa (memory_layout example_abi example_inputs)
        + align_64k_high T8030_MAX_DEVICETREE_SIZE
        + align_64k_high (sizeof_xnu_arm64_boot_args example_abi).
Proof.
  split; [ reflexivity | ]. split; [ vm_compute; reflexivity | ].
  split; [ vm_compute; reflexivity | ]. split; [ vm_compute; reflexivity | ].
  vm_compute. discriminate.
Qed.

(** C6 (witness): the example machine, whose trust cache has 0x1000
    bytes. *)
Lemma trustcache_placement_witness :
  trustcache_pa (memory_layout example_abi example_inputs) = 0x42000000
  /\ phys_ptr_history (memory_layout example_abi example_inputs) !! 2%nat
     = Some 0x42010000.
Proof.
  destruct (trustcache_placement example_abi example_inputs eq_refl)
    as (Hpa & _ & Hcur).
  split; [ exact Hpa | exact Hcur ].
Defined.

(** C7 (witness): a device tree of 0x40000 + 1 bytes stops the build, one of
    0x20000 bytes does not. *)
Lemma dtb_size_assertion_witness :
  T8030_memory_setup example_abi oversized_dtb_inputs = inl AssertDtbSize
  /\ exists o, T8030_memory_setup example_abi example_inputs = inr o
               /\ final_layout o = memory_layout example_abi example_inputs
               /\ dtb_size o = dtb_encoded_size example_inputs.
Proof.
  split.
  - apply (proj1 (dtb_size_assertion example_abi oversized_dtb_inputs)).
    vm_compute. reflexivity.
  - apply (proj2 (dtb_size_assertion example_abi example_inputs)).
    vm_compute. discriminate.
Defined.

(** * Further properties of the code *)

(** ** The kernel patches: what is stored, and where *)

Ltac wrap64_lia :=
  unfold add64, sub64, wrap64 in *;
  change (2 ^ 64) with 18446744073709551616 in *;
  Z.div_mod_to_equations; lia.

Lemma add64_add64 (a b c : Z) : add64 (add64 a b) c = add64 a (b + c).
Proof.
  unfold add64, wrap64. rewrite Z.add_mod_idemp_l by lia. f_equal. lia.
Qed.

Lemma vtop_static_range (g : xnu_globals) (va : Z) :
  0 <= vtop_static g va < 2 ^ 64.
Proof. unfold vtop_static. apply wrap64_range. Qed.

(** A store leaves every address it does not reach as it was. *)
Lemma lookup_address_space_write_out (buf : list Z) :
  forall (m : gmap Z Z) (a k : Z),
    0 <= a < 2 ^ 64 ->
    (forall i : nat, (i < length buf)%nat -> k <> add64 a (Z.of_nat i)) ->
    address_space_write m a buf !! k = m !! k.
Proof.
  induction buf as [| b buf IH]; intros m a k Ha Hout; [ reflexivity | ].
  cbn [address_space_write].
  rewrite IH.
  - apply lookup_alter_ne.
    specialize (Hout 0%nat ltac:(cbn; lia)).
    rewrite add64_small in Hout by (cbn; lia).
    cbn in Hout. intros ->. apply Hout. lia.
  - apply wrap64_range.
  - intros i Hi. rewrite add64_add64.
    specialize (Hout (S i) ltac:(cbn; lia)).
    replace (1 + Z.of_nat i) with (Z.of_nat (S i)) by lia. exact Hout.
Qed.

(** A store of fewer than [2^64] bytes puts byte [i] of the buffer at the
    [i]-th address after [a], modulo [2^64], when RAM backs that address,
    and nothing when none does. *)
Lemma lookup_address_space_write_in (buf : list Z) :
  forall (m : gmap Z Z) (a : Z) (i : nat),
    0 <= a < 2 ^ 64 ->
    Z.of_nat (length buf) <= 2 ^ 64 ->
    (i < length buf)%nat ->
    address_space_write m a buf !! add64 a (Z.of_nat i)
    = match m !! add64 a (Z.of_nat i) with
      | Some _ => buf !! i
      | None => None
      end.
Proof.
  induction buf as [| b buf IH]; intros m a i Ha Hlen Hi; [ cbn in Hi; lia | ].
  cbn [address_space_write]. cbn [length] in Hlen, Hi.
  destruct i as [| i].
  - replace (add64 a (Z.of_nat 0)) with a
      by (rewrite add64_small; cbn; lia).
    rewrite lookup_address_space_write_out.
    + rewrite lookup_alter_eq. destruct (m !! a); reflexivity.
    + apply wrap64_range.
    + intros j Hj. rewrite add64_add64. wrap64_lia.
  - replace (Z.of_nat (S i)) with (1 + Z.of_nat i) by lia.
    rewrite <- add64_add64. cbn [lookup list_lookup].
    rewrite IH by (try apply wrap64_range; lia).
    rewrite lookup_alter_ne; [ reflexivity | ].
    rewrite add64_add64. wrap64_lia.
Qed.

(** The windows of two virtual addresses that lie at least four bytes apart
    modulo [2^64] share no address, whatever the two bases are. *)
Lemma windows_apart (g : xnu_globals) (va1 va2 i j : Z) :
  0 <= i < 4 -> 0 <= j < 4 ->
  4 <= wrap64 (va1 - va2) <= 2 ^ 64 - 4 ->
  add64 (vtop_static g va1) i <> add64 (vtop_static g va2) j.
Proof.
  intros Hi Hj Hd. unfold vtop_static. wrap64_lia.
Qed.

(** Any two different entries of the patch table lie at least four bytes
    apart. *)
Lemma patch_table_apart (p1 p2 : Z * Z) :
  p1 ∈ patch_table -> p2 ∈ patch_table -> p1 <> p2 ->
  4 <= wrap64 (p1.1 - p2.1) <= 2 ^ 64 - 4.
Proof.
  unfold patch_table. intros H1 H2 Hne.
  repeat (apply elem_of_cons in H1 as [-> | H1]);
    try (apply elem_of_nil in H1; contradiction);
    repeat (apply elem_of_cons in H2 as [-> | H2]);
    try (apply elem_of_nil in H2; contradiction);
    try contradiction;
    vm_compute; split; discriminate.
Qed.

(** What a patch leaves at each address: a byte of the instruction inside
    its window, the old content outside. *)
Lemma lookup_apply_patch (g : xnu_globals) (m : gmap Z Z) (p : Z * Z)
    (k : Z) :
  apply_patch g m p !! k =
    if decide (in_window (vtop_static g p.1) k)
    then match m !! k with
         | Some _ =>
             bytes_of_uint32 p.2 !! Z.to_nat (wrap64 (k - vtop_static g p.1))
         | None => None
         end
    else m !! k.
Proof.
  pose proof (vtop_static_range g p.1) as Ha.
  unfold apply_patch, address_space_rw.
  change (take 4 (bytes_of_uint32 p.2)) with (bytes_of_uint32 p.2).
  set (a := vtop_static g p.1) in *.
  destruct (decide (in_window a k)) as [Hin | Hout].
  - assert (Hi : exists i : nat, (i < 4)%nat /\ k = add64 a (Z.of_nat i)).
    { destruct Hin as [-> | [-> | [-> | ->]]];
        [ exists 0%nat | exists 1%nat | exists 2%nat | exists 3%nat ];
        (split; [ lia | reflexivity ]). }
    destruct Hi as (i & Hi & ->).
    rewrite lookup_address_space_write_in
      by (try exact Ha; cbn [length bytes_of_uint32]; lia).
    assert (wrap64 (add64 a (Z.of_nat i) - a) = Z.of_nat i) as ->
      by wrap64_lia.
    rewrite Nat2Z.id. reflexivity.
  - apply lookup_address_space_write_out; [ exact Ha | ].
    intros i Hi Hk. apply Hout. unfold in_window.
    cbn [length bytes_of_uint32] in Hi.
    destruct i as [| [| [| [| i]]]]; [ | | | | lia ]; subst k; auto.
Qed.

(** Patches whose windows share no address commute. *)
Lemma apply_patch_comm (g : xnu_globals) (m : gmap Z Z) (p q : Z * Z) :
  4 <= wrap64 (p.1 - q.1) <= 2 ^ 64 - 4 ->
  apply_patch g (apply_patch g m p) q = apply_patch g (apply_patch g m q) p.
Proof.
  intros Hapart. apply map_eq. intros k.
  rewrite !lookup_apply_patch.
  destruct (decide (in_window (vtop_static g q.1) k)) as [Hq | Hq];
    destruct (decide (in_window (vtop_static g p.1) k)) as [Hp | Hp];
    try reflexivity.
  exfalso.
  destruct Hp as [Hp | [Hp | [Hp | Hp]]];
    destruct Hq as [Hq | [Hq | [Hq | Hq]]];
    rewrite Hp in Hq;
    (eapply (windows_apart g p.1 q.1); [ | | exact Hapart | exact Hq ]; lia).
Qed.

Lemma foldl_permutation_comm {A B} (f : A -> B -> A) (l1 l2 : list B) :
  (forall a x y, x ∈ l1 -> y ∈ l1 -> x <> y -> f (f a x) y = f (f a y) x) ->
  (forall x y : B, Decision (x = y)) ->
  l1 ≡ₚ l2 -> forall a, foldl f a l1 = foldl f a l2.
Proof.
  intros Hcomm Hdec Hperm.
  induction Hperm as [| x l1 l2 Hperm IH | x y l | l1 l2 l3 H12 IH12 H23 IH23];
    intros a.
  - reflexivity.
  - cbn. apply IH. intros a' u v Hu Hv. apply Hcomm; apply elem_of_cons; auto.
  - cbn. destruct (Hdec x y) as [-> | Hne]; [ reflexivity | ].
    f_equal. apply Hcomm; [ | | congruence ].
    + apply elem_of_cons. auto.
    + apply elem_of_cons. right. apply elem_of_cons. auto.
  - rewrite IH12 by exact Hcomm. apply IH23.
    intros a' u v Hu Hv. apply Hcomm; rewrite H12; assumption.
Qed.

Lemma T8030_patch_kernel_table (g : xnu_globals) (m : gmap Z Z) :
  T8030_patch_kernel g m = foldl (apply_patch g) m patch_table.
Proof. reflexivity. Qed.

Lemma foldl_apply_patch_permutation (g : xnu_globals) (m : gmap Z Z)
    (t : list (Z * Z)) :
  t ≡ₚ patch_table ->
  foldl (apply_patch g) m t = T8030_patch_kernel g m.
Proof.
  intros Hperm. rewrite T8030_patch_kernel_table. symmetry.
  apply foldl_permutation_comm; [ | apply _ | symmetry; exact Hperm ].
  intros a x y Hx Hy Hne. apply apply_patch_comm.
  apply patch_table_apart; assumption.
Qed.

(** X1.  The four patches are independent of their order: storing the
    entries of the patch table in any order leaves guest memory as
    [T8030_patch_kernel] leaves it, whatever the two translation bases
    are. *)
Theorem patches_order_independent (g : xnu_globals) (m : gmap Z Z)
    (t : list (Z * Z)) :
  t ≡ₚ patch_table ->
  foldl (apply_patch g) m t = T8030_patch_kernel g m.
Proof. apply foldl_apply_patch_permutation. Qed.

Lemma patches_order_independent_witness :
  foldl (apply_patch (MkGlobals 0xFFFFFFF000000000 T8030_PHYS_BASE))
        example_kernel_memory (reverse patch_table)
  = T8030_patch_kernel (MkGlobals 0xFFFFFFF000000000 T8030_PHYS_BASE)
                       example_kernel_memory.
Proof.
  apply (patches_order_independent
           (MkGlobals 0xFFFFFFF000000000 T8030_PHYS_BASE)
           example_kernel_memory (reverse patch_table)).
  apply reverse_Permutation.
Defined.







(** X3.  [T8030_patch_kernel] changes nothing outside the four 4-byte
    windows: an address that is in the window of no entry of the patch table
    holds after the patches what it held before, or nothing if it held
    nothing. *)
Theorem T8030_patch_kernel_frame (g : xnu_globals) (m : gmap Z Z) (k : Z) :
  (forall p, p ∈ patch_table -> ~ in_window (vtop_static g p.1) k) ->
  T8030_patch_kernel g m !! k = m !! k.
Proof.
  intros Hout. rewrite T8030_patch_kernel_table.
  assert (Hgen : forall t, (forall p, p ∈ t -> p ∈ patch_table) ->
                 forall m0, foldl (apply_patch g) m0 t !! k = m0 !! k).
  { induction t as [| p t IH]; intros Hsub m0; [ reflexivity | ].
    cbn [foldl]. rewrite IH.
    - rewrite lookup_apply_patch.
      apply decide_False. apply Hout, Hsub. apply elem_of_cons. auto.
    - intros q Hq. apply Hsub. apply elem_of_cons. auto. }
  apply Hgen. auto.
Qed.

Lemma T8030_patch_kernel_frame_witness :
  T8030_patch_kernel (MkGlobals 0xFFFFFFF000000000 T8030_PHYS_BASE)
                     {[ 0x47B4A540 := 0xAA ]} !! 0x47B4A540 = Some 0xAA.
Proof.
  rewrite (T8030_patch_kernel_frame
             (MkGlobals 0xFFFFFFF000000000 T8030_PHYS_BASE)
             {[ 0x47B4A540 := 0xAA ]} 0x47B4A540).
  - reflexivity.
  - intros p Hp. unfold patch_table in Hp.
    repeat (apply elem_of_cons in Hp as [-> | Hp]);
      try (apply elem_of_nil in Hp; contradiction);
      vm_compute; intuition discriminate.
Defined.

(** ** More about the layout *)

Lemma aligned_align_64k_high (a : Z) : aligned_64k (align_64k_high a).
Proof.
  unfold aligned_64k, align_64k_high.
  rewrite land_not_ffff by apply wrap64_range.
  rewrite Z.mul_comm. apply Z.mod_mul. lia.
Qed.

Lemma aligned_add64 (a b : Z) :
  aligned_64k a -> aligned_64k b -> aligned_64k (add64 a b).
Proof. unfold aligned_64k. intros Ha Hb. wrap64_lia. Qed.

Lemma add64_in_range (a : Z) : 0 <= a < 2 ^ 64 -> add64 a 0 = a.
Proof. intros Ha. rewrite add64_small by lia. lia. Qed.

Section MoreLayout.

Variable abi : xnu_abi.
Variable e : setup_inputs.

Local Notation "'ML'" := (memory_layout abi e).
Local Notation "'has_ramdisk'" :=
  (negb (first_char (ramdisk_filename e) =? 0)).

Lemma layout_alignment :
  Forall aligned_64k (phys_ptr_history ML)
  /\ aligned_64k (trustcache_pa ML)
  /\ aligned_64k (dtb_pa ML)
  /\ aligned_64k (ramdisk_file_dev_pa ML)
  /\ aligned_64k (ramdisk_size ML)
  /\ aligned_64k (kbootargs_pa ML)
  /\ aligned_64k (extra_data_pa ML)
  /\ aligned_64k (top_of_kernel_data_pa ML).
Proof.
  assert (H277 : aligned_64k T8030_PHYS_BASE) by reflexivity.
  assert (H282 : aligned_64k (trustcache_pa ML)) by reflexivity.
  assert (H289 : aligned_64k
            (add64 (trustcache_pa ML) (align_64k_high (trustcache_size ML))))
    by (apply aligned_add64; [ exact H282 | apply aligned_align_64k_high ]).
  assert (H300 : aligned_64k (dtb_pa ML)) by apply aligned_align_64k_high.
  assert (H306 : aligned_64k
            (add64 (dtb_pa ML) (align_64k_high T8030_MAX_DEVICETREE_SIZE)))
    by (apply aligned_add64; [ exact H300 | apply aligned_align_64k_high ]).
  assert (Hrs : aligned_64k (ramdisk_size ML)).
  { unfold memory_layout. cbn [ramdisk_size].
    destruct has_ramdisk; [ apply aligned_align_64k_high | reflexivity ]. }
  assert (Hrp : aligned_64k (ramdisk_file_dev_pa ML)).
  { unfold memory_layout. cbn [ramdisk_file_dev_pa].
    destruct has_ramdisk; [ exact H306 | reflexivity ]. }
  assert (H319 : aligned_64k (kbootargs_pa ML)).
  { revert Hrs H306. unfold memory_layout.
    cbn [kbootargs_pa ramdisk_size dtb_pa].
    destruct has_ramdisk; intros Hrs H306;
      [ apply aligned_add64; assumption | exact H306 ]. }
  assert (H328 : aligned_64k (extra_data_pa ML))
    by (apply aligned_add64; [ exact H319 | apply aligned_align_64k_high ]).
  assert (H339 : aligned_64k (top_of_kernel_data_pa ML))
    by (apply aligned_add64; [ exact H328 | apply aligned_align_64k_high ]).
  split; [ | tauto ].
  rewrite history_fields.
  destruct has_ramdisk; cbn [app]; repeat constructor; assumption.
Qed.

(** X4.  Every value the cursor takes is a multiple of 64 KiB, on every
    input, wrap-around included; so are the bases of the trust cache, the
    device tree, the ramdisk, the boot arguments and the scratch data, the
    top of the kernel data and the rounded size of the ramdisk.  (The
    physical start of the kernel is not the cursor's and need not be.) *)
Theorem layout_bases_aligned :
  Forall aligned_64k (phys_ptr_history ML)
  /\ aligned_64k (trustcache_pa ML)
  /\ aligned_64k (dtb_pa ML)
  /\ aligned_64k (ramdisk_file_dev_pa ML)
  /\ aligned_64k (ramdisk_size ML)
  /\ aligned_64k (kbootargs_pa ML)
  /\ aligned_64k (extra_data_pa ML)
  /\ aligned_64k (top_of_kernel_data_pa ML).
Proof. exact layout_alignment. Qed.

(** X5.  A configured ramdisk whose file is empty moves nothing: the device
    tree, the boot arguments, the scratch data, the top of the kernel data
    and the DRAM size are where they are without a ramdisk, and the size
    recorded for the ramdisk is 0. *)
Theorem zero_length_ramdisk_moves_nothing (name : string) :
  ramdisk_file_size e = 0 ->
  layout_outputs (memory_layout abi (with_ramdisk_filename name e))
  = layout_outputs (memory_layout abi (with_ramdisk_filename EmptyString e))
  /\ dtb_pa (memory_layout abi (with_ramdisk_filename name e))
     = dtb_pa (memory_layout abi (with_ramdisk_filename EmptyString e))
  /\ dtb_va (memory_layout abi (with_ramdisk_filename name e))
     = dtb_va (memory_layout abi (with_ramdisk_filename EmptyString e))
  /\ ramdisk_size (memory_layout abi (with_ramdisk_filename name e)) = 0.
Proof.
  intros Hsize.
  assert (Hkb : kbootargs_pa (memory_layout abi (with_ramdisk_filename name e))
                = kbootargs_pa
                    (memory_layout abi (with_ramdisk_filename EmptyString e))).
  { unfold memory_layout.
    cbn [kbootargs_pa ramdisk_filename with_ramdisk_filename
         ramdisk_file_size macho_kernel_high macho_virt_base].
    rewrite Hsize. change (align_64k_high 0) with 0.
    cbn [first_char Z.eqb negb].
    destruct (negb (first_char name =? 0)); [ | reflexivity ].
    rewrite add64_add64. reflexivity. }
  assert (Hrs : ramdisk_size (memory_layout abi (with_ramdisk_filename name e))
                = 0).
  { unfold memory_layout.
    cbn [ramdisk_size ramdisk_filename with_ramdisk_filename
         ramdisk_file_size].
    rewrite Hsize. destruct (negb (first_char name =? 0)); reflexivity. }
  split; [ | split; [ reflexivity | split; [ reflexivity | exact Hrs ] ] ].
  unfold layout_outputs.
  change (extra_data_pa (memory_layout abi (with_ramdisk_filename name e)))
    with (add64 (kbootargs_pa
                   (memory_layout abi (with_ramdisk_filename name e)))
                (align_64k_high (sizeof_xnu_arm64_boot_args abi))).
  change (top_of_kernel_data_pa
            (memory_layout abi (with_ramdisk_filename name e)))
    with (add64 (add64 (kbootargs_pa
                   (memory_layout abi (with_ramdisk_filename name e)))
                   (align_64k_high (sizeof_xnu_arm64_boot_args abi)))
                (align_64k_high (sizeof_AllocatedData abi))).
  change (dram_size (memory_layout abi (with_ramdisk_filename name e)))
    with (add64 (sub64 (add64 (kbootargs_pa
                   (memory_layout abi (with_ramdisk_filename name e)))
                   (align_64k_high (sizeof_xnu_arm64_boot_args abi)))
                   T8030_PHYS_BASE)
                (remaining_mem_size
                   (memory_layout abi (with_ramdisk_filename EmptyString e)))).
  rewrite Hkb. reflexivity.
Qed.

(** X6.  Without wrap-around the regions from the device tree on are packed
    back to back: each starts exactly where the one before it ends, the
    ramdisk included when there is one, and the scratch data ends at the top
    of the kernel data. *)
Theorem regions_packed_after_kernel :
  no_wraparound abi e ->
  packed (drop 2 (boot_regions abi e))
  /\ extra_data_pa ML + align_64k_high (sizeof_AllocatedData abi)
     = top_of_kernel_data_pa ML.
Proof.
  intros Hfit.
  destruct (layout_chain abi e Hfit)
    as (_ & _ & _ & _ & _ & HR & Hrd & Hkb & _ & Hex & _ & Hpp).
  split; [ | symmetry; exact Hpp ].
  unfold ramdisk_request in HR.
  assert (Hdrop : drop 2 (boot_regions abi e)
    = MkRegion DeviceTreeBlob (dtb_pa ML) 0x40000
      :: (if has_ramdisk
          then [ MkRegion Ramdisk (ramdisk_file_dev_pa ML) (ramdisk_size ML) ]
          else [])
      ++ [ MkRegion BootArgsStruct (kbootargs_pa ML)
                    (align_64k_high (sizeof_xnu_arm64_boot_args abi));
           MkRegion ExtraScratchData (extra_data_pa ML)
                    (align_64k_high (sizeof_AllocatedData abi)) ])
    by reflexivity.
  rewrite Hdrop. clear Hdrop Hpp Hfit. unfold packed.
  set (d := dtb_pa ML) in *. set (rp := ramdisk_file_dev_pa ML) in *.
  set (rs := ramdisk_size ML) in *. set (kb := kbootargs_pa ML) in *.
  set (ex := extra_data_pa ML) in *. clearbody d rp rs kb ex.
  destruct has_ramdisk; cbn [app]; intros i A B HA HB;
    destruct i as [| [| [| i]]]; cbn [lookup list_lookup] in HA, HB;
    try discriminate HB;
    injection HA as <-; injection HB as <-;
    cbn [region_base region_size]; lia.
Qed.

(** X7.  The DRAM range handed to the kernel ends exactly where the RAM
    allocated behind the blobs ends: base plus size of the DRAM equals, in
    64-bit arithmetic, the base plus the size of the region passed to
    [allocate_ram], on every input. *)
Theorem dram_ends_with_allocated_ram :
  add64 (dram_base ML) (dram_size ML)
  = add64 (allocated_ram_pa ML) (remaining_mem_size ML).
Proof.
  unfold memory_layout.
  cbn [dram_base dram_size allocated_ram_pa remaining_mem_size].
  set (alloc := add64 _ (align_64k_high (sizeof_xnu_arm64_boot_args abi))).
  set (rem := sub64 (ram_size e) _).
  unfold T8030_PHYS_BASE. clearbody alloc rem. wrap64_lia.
Qed.

(** X8.  When nothing wraps around, the kernel span lies above the virtual
    base, the trust cache ends before the kernel starts and the configured
    RAM covers the counted blobs and the scratch data, every placed region
    lies inside the DRAM range [dram_base, dram_base + dram_size) handed to
    the kernel, and the top of the kernel data does not exceed the end
    [dram_base + dram_size] of that range. *)
Theorem regions_inside_dram :
  no_wraparound abi e ->
  kernel_span_ok e ->
  trustcache_pa ML + align_64k_high (trustcache_size ML)
    <= vtop_static (globals ML) (kernel_low ML) ->
  used_ram_for_blobs ML + align_64k_high (sizeof_AllocatedData abi)
    <= ram_size e ->
  allocated_ram_pa ML + ram_size e < 2 ^ 64 ->
  Forall (inside_dram ML) (boot_regions abi e)
  /\ top_of_kernel_data_pa ML <= dram_base ML + dram_size ML
  /\ dram_base ML + dram_size ML
     = allocated_ram_pa ML + remaining_mem_size ML.
Proof.
  intros Hfit (Hlow & Hhigh & Hphys) Htc_end Hram Hend.
  destruct (layout_chain abi e Hfit)
    as (Htc & HT & _ & Hv & _ & HR & Hrd & Hkb & HB & Hex & HX & Hpp).
  destruct Hfit as (Htc0 & Hrd0 & Hba0 & Had0 & _ & _).
  unfold ramdisk_request in HR.
  change (top_of_kernel_data_pa ML) with (phys_ptr ML).
  change (kernel_high ML) with (macho_kernel_high e) in *.
  change (kernel_low ML) with (macho_kernel_low e) in *.
  change (globals ML) with (MkGlobals (macho_virt_base e) T8030_PHYS_BASE) in *.
  assert (Hvtop : forall va, macho_virt_base e <= va <= macho_kernel_high e ->
            vtop_static (MkGlobals (macho_virt_base e) T8030_PHYS_BASE) va
            = va - macho_virt_base e + T8030_PHYS_BASE).
  { intros va Hva. unfold vtop_static. cbn [g_virt_base g_phys_base].
    unfold T8030_PHYS_BASE in *.
    rewrite sub64_small by lia. apply add64_small. lia. }
  rewrite (Hvtop (macho_kernel_low e)) in Htc_end by lia.
  rewrite (Hvtop (macho_kernel_high e)) in Hv by lia.
  assert (Hsz : sub64 (macho_kernel_high e) (macho_kernel_low e)
                = macho_kernel_high e - macho_kernel_low e).
  { apply sub64_small. unfold T8030_PHYS_BASE in Hphys. lia. }
  assert (Hused : 0 <= used_ram_for_blobs ML < 2 ^ 64)
    by (unfold memory_layout; cbn [used_ram_for_blobs]; apply wrap64_range).
  assert (Halloc : allocated_ram_pa ML = extra_data_pa ML) by reflexivity.
  rewrite Halloc in Hend.
  pose proof (align_64k_high_range (sizeof_AllocatedData abi)) as HXr.
  assert (Hex0 : T8030_PHYS_BASE <= extra_data_pa ML)
    by (unfold T8030_PHYS_BASE in *; destruct has_ramdisk; lia).
  assert (Hrem : remaining_mem_size ML
                 = ram_size e - used_ram_for_blobs ML).
  { change (remaining_mem_size ML)
      with (sub64 (ram_size e) (used_ram_for_blobs ML)).
    apply sub64_small. unfold T8030_PHYS_BASE in *. lia. }
  assert (Hds : dram_size ML
                = extra_data_pa ML - T8030_PHYS_BASE
                  + (ram_size e - used_ram_for_blobs ML)).
  { change (dram_size ML)
      with (add64 (sub64 (extra_data_pa ML) T8030_PHYS_BASE)
                  (sub64 (ram_size e) (used_ram_for_blobs ML))).
    unfold T8030_PHYS_BASE in *.
    rewrite (sub64_small (ram_size e)) by lia.
    rewrite sub64_small by lia. apply add64_small. lia. }
  assert (Hregions : boot_regions abi e
    = [ MkRegion TrustCache (trustcache_pa ML)
                 (align_64k_high (trustcache_size ML));
        MkRegion KernelSpan
                 (macho_kernel_low e - macho_virt_base e + T8030_PHYS_BASE)
                 (macho_kernel_high e - macho_kernel_low e);
        MkRegion DeviceTreeBlob (dtb_pa ML) 0x40000 ]
      ++ (if has_ramdisk
          then [ MkRegion Ramdisk (ramdisk_file_dev_pa ML) (ramdisk_size ML) ]
          else [])
      ++ [ MkRegion BootArgsStruct (kbootargs_pa ML)
                    (align_64k_high (sizeof_xnu_arm64_boot_args abi));
           MkRegion ExtraScratchData (extra_data_pa ML)
                    (align_64k_high (sizeof_AllocatedData abi)) ]).
  { unfold boot_regions. cbv zeta.
    change (kernel_high ML) with (macho_kernel_high e).
    change (kernel_low ML) with (macho_kernel_low e).
    change (globals ML)
      with (MkGlobals (macho_virt_base e) T8030_PHYS_BASE).
    rewrite Hsz, (Hvtop (macho_kernel_low e)) by lia. reflexivity. }
  rewrite Hregions, Hrem, Halloc, Hds. clear Hregions.
  unfold inside_dram. rewrite Hds.
  change (dram_base ML) with T8030_PHYS_BASE.
  unfold T8030_PHYS_BASE in *.
  set (tp := trustcache_pa ML) in *.
  set (ts := align_64k_high (trustcache_size ML)) in *.
  set (d := dtb_pa ML) in *. set (rp := ramdisk_file_dev_pa ML) in *.
  set (rs := ramdisk_size ML) in *. set (kb := kbootargs_pa ML) in *.
  set (ex := extra_data_pa ML) in *. set (top := phys_ptr ML) in *.
  set (used := used_ram_for_blobs ML) in *.
  clearbody tp ts d rp rs kb ex top used.
  split; [ | lia ].
  destruct has_ramdisk; cbn [app];
    repeat match goal with
           | |- Forall _ _ => constructor
           end;
    cbn [region_base region_size]; lia.
Qed.

(** X9.  Neither the size of the trust cache nor the configured RAM size
    moves anything: the device tree, the ramdisk, the boot arguments, the
    scratch data and the top of the kernel data are where they are for every
    trust-cache size and every RAM size, and the trust-cache size changes
    neither the bookkeeping of used RAM nor the DRAM size. *)
Theorem trustcache_and_ram_size_move_nothing (tc rs : Z) :
  placement_after_kernel (memory_layout abi (with_trustcache_file_size tc e))
  = placement_after_kernel ML
  /\ mem_size (memory_layout abi (with_trustcache_file_size tc e))
     = mem_size ML
  /\ placement_after_kernel (memory_layout abi (with_ram_size rs e))
     = placement_after_kernel ML
  /\ phys_ptr_history (memory_layout abi (with_ram_size rs e))
     = phys_ptr_history ML.
Proof. repeat split; reflexivity. Qed.

(** X10.  The virtual address of the device tree written to the boot
    arguments translates back to the physical address the device tree is
    loaded at. *)
Theorem dtb_va_translates_to_dtb_pa :
  vtop_static (globals ML) (dtb_va ML) = dtb_pa ML.
Proof.
  pose proof (align_64k_high_range
                (vtop_static (globals ML) (kernel_high ML))) as Hr.
  change (dtb_va ML) with (ptov_static (globals ML) (dtb_pa ML)).
  change (align_64k_high (vtop_static (globals ML) (kernel_high ML)))
    with (dtb_pa ML) in Hr.
  set (pa := dtb_pa ML) in *. clearbody pa.
  unfold vtop_static, ptov_static.
  set (vb := g_virt_base (globals ML)). set (pb := g_phys_base (globals ML)).
  clearbody vb pb. wrap64_lia.
Qed.

(** X11.  Whenever the build returns, the size of the device tree written
    to the boot arguments is the encoded size and is at most the reserved
    maximum; without wrap-around and with a non-negative size, the encoded
    tree ends at or before the base of the boot arguments. *)
Theorem encoded_dtb_fits (o : boot_outcome) :
  T8030_memory_setup abi e = inr o ->
  no_wraparound abi e ->
  0 <= dtb_encoded_size e ->
  bootargs_dtb_size o = dtb_encoded_size e
  /\ bootargs_dtb_size o <= T8030_MAX_DEVICETREE_SIZE
  /\ bootargs_dtb_va o = dtb_va ML
  /\ dtb_pa ML + bootargs_dtb_size o <= kbootargs_pa ML.
Proof.
  unfold T8030_memory_setup. cbv zeta. intros Hret Hfit Hpos.
  destruct (Z.leb_spec (dtb_encoded_size e) T8030_MAX_DEVICETREE_SIZE)
    as [Hle | Hgt]; [ | discriminate Hret ].
  injection Hret as <-.
  cbn [bootargs_dtb_size bootargs_dtb_va].
  destruct (layout_chain abi e Hfit)
    as (_ & _ & _ & _ & _ & HR & _ & Hkb & _).
  unfold T8030_MAX_DEVICETREE_SIZE in *.
  repeat split; try lia.
Qed.

(** X12.  After [T8030_cpu_reset] the program counter is the entry point
    the kernel loader reported and register 0 is the base of the boot
    arguments, a multiple of 64 KiB; every other register is as [cpu_reset]
    left it. *)
Theorem T8030_cpu_reset_entry (env : CPUARMState) :
  pc (T8030_cpu_reset ML env) = macho_phys_pc e
  /\ xregs (T8030_cpu_reset ML env) 0%nat = kbootargs_pa ML
  /\ aligned_64k (xregs (T8030_cpu_reset ML env) 0%nat)
  /\ forall n, n <> 0%nat -> xregs (T8030_cpu_reset ML env) n = xregs env n.
Proof.
  split; [ reflexivity | ]. split; [ reflexivity | ].
  split; [ apply layout_alignment | ].
  intros n Hn. cbn. destruct (decide (n = 0%nat)); [ contradiction | reflexivity ].
Qed.

End MoreLayout.

(** ** The register bank, the windows and the cores *)

(** X13.  The system-register handlers of different registers do not
    interfere: a write changes neither another register nor the identifier
    of the core, the last of two writes to a register wins, and writes to
    two different registers commute. *)
Theorem cpreg_writes_independent (tcpu : T8030CPU) (r1 r2 r : cpreg)
    (v1 v2 : Z) :
  (r <> r1 ->
   T8030_cpreg_read r (T8030_cpreg_write r1 tcpu v1) = T8030_cpreg_read r tcpu)
  /\ cpu_id (T8030_cpreg_write r1 tcpu v1) = cpu_id tcpu
  /\ T8030_cpreg_read r (T8030_cpreg_write r1 (T8030_cpreg_write r1 tcpu v1) v2)
     = T8030_cpreg_read r (T8030_cpreg_write r1 tcpu v2)
  /\ (r1 <> r2 ->
      T8030_cpreg_read r
        (T8030_cpreg_write r2 (T8030_cpreg_write r1 tcpu v1) v2)
      = T8030_cpreg_read r
          (T8030_cpreg_write r1 (T8030_cpreg_write r2 tcpu v2) v1)).
Proof.
  unfold T8030_cpreg_read, T8030_cpreg_write.
  split; [ intros Hne; apply cpreg_var_set_other; exact Hne | ].
  split; [ reflexivity | ].
  split.
  - cbn. destruct (decide (r = r1)); reflexivity.
  - intros Hne. cbn.
    destruct (decide (r = r2)) as [-> | H2]; [ | reflexivity ].
    destruct (decide (r2 = r1)) as [-> | H1]; [ contradiction | reflexivity ].
Qed.

(** X14.  Running [T8030_add_cpregs] again wipes what was written to the
    fourteen registers it assigns and keeps what was written to the other
    twenty-five: after a system-register write of [v] to [r] followed by
    [T8030_add_cpregs], register [r] holds [v] exactly when the function
    does not assign [r], and every other register holds what it holds
    without the write.  Running it twice is running it once. *)
Theorem T8030_add_cpregs_after_write (tcpu : T8030CPU) (r r' : cpreg)
    (v : Z) :
  T8030_cpreg_read r' (T8030_add_cpregs (T8030_cpreg_write r tcpu v))
  = (if assigned_by_add_cpregs r
     then T8030_cpreg_read r' (T8030_add_cpregs tcpu)
     else if decide (r' = r) then v
          else T8030_cpreg_read r' (T8030_add_cpregs tcpu))
  /\ T8030_cpreg_read r' (T8030_add_cpregs (T8030_add_cpregs tcpu))
     = T8030_cpreg_read r' (T8030_add_cpregs tcpu).
Proof.
  unfold T8030_cpreg_read, T8030_cpreg_write.
  rewrite !add_cpregs_slot.
  split.
  - destruct (assigned_by_add_cpregs r') eqn:Hr'.
    + destruct (assigned_by_add_cpregs r) eqn:Hr; [ reflexivity | ].
      destruct (decide (r' = r)) as [-> | _]; [ congruence | reflexivity ].
    + cbn [set_cpreg_var cpreg_var].
      destruct (decide (r' = r)) as [-> | Hne].
      * rewrite Hr'. reflexivity.
      * destruct (assigned_by_add_cpregs r); reflexivity.
  - destruct (assigned_by_add_cpregs r'); reflexivity.
Qed.

Lemma run_accesses_cpu (tcpu : T8030CPU) (accesses : list mmio_access) :
  run_accesses cpu_impl_reg_ops tcpu accesses
  = (tcpu,
     omap (fun a => match a with
                    | MmioRead _ _ => Some 0
                    | MmioWrite _ _ _ => None
                    end) accesses,
     map (fun a => match a with
                   | MmioRead addr _ => LogImplRegRead (cpu_id tcpu) addr
                   | MmioWrite addr data _ =>
                       LogImplRegWrite (cpu_id tcpu) addr data
                   end) accesses).
Proof.
  induction accesses as [| a rest IH]; [ reflexivity | ].
  destruct a; cbn [run_accesses cpu_impl_reg_ops ops_read ops_write
                   cpu_impl_reg_read cpu_impl_reg_write];
    rewrite IH; reflexivity.
Qed.

Lemma run_accesses_cpm (c : cluster) (accesses : list mmio_access) :
  run_accesses cpm_impl_reg_ops c accesses
  = (c,
     omap (fun a => match a with
                    | MmioRead _ _ => Some 0
                    | MmioWrite _ _ _ => None
                    end) accesses,
     map (fun a => match a with
                   | MmioRead addr _ => LogCpmRead (cluster_id c) addr
                   | MmioWrite addr data _ =>
                       LogCpmWrite (cluster_id c) addr data
                   end) accesses).
Proof.
  induction accesses as [| a rest IH]; [ reflexivity | ].
  destruct a; cbn [run_accesses cpm_impl_reg_ops ops_read ops_write
                   cpm_impl_reg_read cpm_impl_reg_write];
    rewrite IH; reflexivity.
Qed.

(** X15.  No sequence of accesses to the implementation-register window of
    a core or of a cluster changes the core (its registers included) or the
    cluster; every read of the sequence returns 0, whatever was written
    before it; and one line is printed per access. *)
Theorem impl_reg_windows_are_inert (tcpu : T8030CPU) (c : cluster)
    (accesses : list mmio_access) :
  (run_accesses cpu_impl_reg_ops tcpu accesses).1.1 = tcpu
  /\ Forall (fun v => v = 0) (run_accesses cpu_impl_reg_ops tcpu accesses).1.2
  /\ length (run_accesses cpu_impl_reg_ops tcpu accesses).2 = length accesses
  /\ (run_accesses cpm_impl_reg_ops c accesses).1.1 = c
  /\ Forall (fun v => v = 0) (run_accesses cpm_impl_reg_ops c accesses).1.2
  /\ length (run_accesses cpm_impl_reg_ops c accesses).2 = length accesses.
Proof.
  rewrite run_accesses_cpu, run_accesses_cpm. cbn [fst snd].
  assert (Hzero : Forall (fun v => v = 0)
            (omap (fun a => match a with
                            | MmioRead _ _ => Some 0
                            | MmioWrite _ _ _ => None
                            end) accesses)).
  { induction accesses as [| [] rest IH]; cbn; [ constructor | | exact IH ].
    constructor; [ reflexivity | exact IH ]. }
  repeat split; try exact Hzero; apply length_map.
Qed.

Lemma ForallOrdPairs_lookup {A} (R : A -> A -> Prop) (l : list A) :
  ForallOrdPairs R l
  <-> (forall (i j : nat) (a b : A),
         (i < j)%nat -> l !! i = Some a -> l !! j = Some b -> R a b).
Proof.
  split.
  - induction 1 as [| a l Hhead _ IH]; intros i j x y Hij Hi Hj.
    + discriminate Hi.
    + destruct j as [| j]; [ lia | ]. cbn [lookup list_lookup] in Hj.
      destruct i as [| i].
      * injection Hi as <-. rewrite Forall_forall in Hhead.
        apply Hhead. eapply list_elem_of_lookup_2. exact Hj.
      * cbn [lookup list_lookup] in Hi. apply (IH i j); [ lia | assumption .. ].
  - induction l as [| a l IH]; intros Hall; constructor.
    + apply Forall_forall. intros b Hb.
      apply list_elem_of_lookup in Hb as [j Hj].
      apply (Hall 0%nat (S j)); [ lia | reflexivity | exact Hj ].
    + apply IH. intros i j x y Hij Hi Hj.
      apply (Hall (S i) (S j)); [ lia | assumption .. ].
Qed.

Lemma length_T8030_cpu_setup_cores (smp_cpus : nat) (cpus : list T8030CPU) :
  length (T8030_cpu_setup_cores smp_cpus cpus)
  = Nat.min smp_cpus (length cpus).
Proof.
  unfold T8030_cpu_setup_cores. rewrite length_imap. apply length_take.
Qed.

Lemma lookup_T8030_cpu_setup_cores (smp_cpus : nat) (cpus : list T8030CPU)
    (i : nat) (c : core_setup) :
  T8030_cpu_setup_cores smp_cpus cpus !! i = Some c ->
  (i < Nat.min smp_cpus (length cpus))%nat
  /\ exists c0, cpus !! i = Some c0
     /\ c = {| core_cpu :=
                 T8030_add_cpregs
                   {| cpu_id := Z.of_nat i; cpreg_var := cpreg_var c0 |};
               core_has_el3 := false;
               core_has_el2 := false;
               core_start_powered_off := (0 <? i)%nat;
               core_impl_reg_base :=
                 add64 CPU_IMPL_REG_BASE (wrap32 (0x10000 * Z.of_nat i));
               core_impl_reg_size := 0x10000 |}.
Proof.
  intros Hc.
  assert (Hlt : (i < Nat.min smp_cpus (length cpus))%nat).
  { rewrite <- length_T8030_cpu_setup_cores.
    eapply lookup_lt_Some. exact Hc. }
  split; [ exact Hlt | ].
  unfold T8030_cpu_setup_cores in Hc.
  rewrite list_lookup_imap, fmap_Some in Hc.
  destruct Hc as (c0 & Hc0 & ->).
  rewrite lookup_take_lt in Hc0 by lia.
  exists c0. split; [ exact Hc0 | reflexivity ].
Qed.

(** X16.  [T8030_cpu_setup] sets up as many cores as the smaller of the
    configured number and the length of the array.  Core [i] is the entry
    [i] of the array after [T8030_add_cpregs] ran on it with identifier [i]:
    [ARM64_REG_APCTL_EL1] holds 2, the thirteen other registers
    [T8030_add_cpregs] assigns hold 0, and every other register holds what
    the entry held before.  The core has no EL3 and no EL2, starts powered
    off unless it is core 0, and its window of implementation registers
    starts at the address [cpu_impl_reg_addr] gives for it and is 0x10000
    bytes long.  The entries of the array beyond the configured number are
    left as they were. *)
Theorem T8030_cpu_setup_cores_spec (smp_cpus : nat) (cpus : list T8030CPU) :
  length (T8030_cpu_setup_cores smp_cpus cpus)
  = Nat.min smp_cpus (length cpus)
  /\ (forall i c,
        T8030_cpu_setup_cores smp_cpus cpus !! i = Some c ->
        cpu_id (core_cpu c) = Z.of_nat i
        /\ core_has_el3 c = false
        /\ core_has_el2 c = false
        /\ (core_start_powered_off c = false <-> i = 0%nat)
        /\ T8030_cpu_setup smp_cpus cpus !! i = Some (core_cpu c)
        /\ core_impl_reg_base c = cpu_impl_reg_addr (core_cpu c)
        /\ core_impl_reg_size c = 0x10000
        /\ exists c0,
             cpus !! i = Some c0
             /\ core_cpu c
                = T8030_add_cpregs
                    {| cpu_id := Z.of_nat i; cpreg_var := cpreg_var c0 |}
             /\ T8030_cpreg_read ARM64_REG_APCTL_EL1 (core_cpu c) = 2
             /\ (forall r,
                   assigned_by_add_cpregs r = true ->
                   r <> ARM64_REG_APCTL_EL1 ->
                   T8030_cpreg_read r (core_cpu c) = 0)
             /\ (forall r,
                   assigned_by_add_cpregs r = false ->
                   T8030_cpreg_read r (core_cpu c) = T8030_cpreg_read r c0))
  /\ (forall i, (smp_cpus <= i)%nat ->
        T8030_cpu_setup smp_cpus cpus !! i = cpus !! i).
Proof.
  split; [ apply length_T8030_cpu_setup_cores | ].
  split.
  - intros i c Hc.
    apply lookup_T8030_cpu_setup_cores in Hc as (Hlt & c0 & Hc0 & ->).
    cbn [core_cpu core_has_el3 core_has_el2 core_start_powered_off
         core_impl_reg_base core_impl_reg_size].
    split; [ reflexivity | ]. split; [ reflexivity | ].
    split; [ reflexivity | ].
    split.
    { destruct i; cbn; split; intros H; try reflexivity; try discriminate;
        lia. }
    split.
    { assert (Hb : (i <? smp_cpus)%nat = true) by (apply Nat.ltb_lt; lia).
      unfold T8030_cpu_setup. rewrite list_lookup_imap, Hc0.
      unfold fmap, option_fmap, option_map. rewrite Hb. reflexivity. }
    split; [ reflexivity | ]. split; [ reflexivity | ].
    exists c0. split; [ exact Hc0 | ]. split; [ reflexivity | ].
    split; [ reflexivity | ].
    split.
    + intros r Hr Hne. unfold T8030_cpreg_read.
      rewrite add_cpregs_slot, Hr.
      destruct (decide (r = ARM64_REG_APCTL_EL1)); [ contradiction | ].
      reflexivity.
    + intros r Hr. unfold T8030_cpreg_read.
      rewrite add_cpregs_slot, Hr. reflexivity.
  - intros i Hi. unfold T8030_cpu_setup. rewrite list_lookup_imap.
    assert (Hb : (i <? smp_cpus)%nat = false) by (apply Nat.ltb_ge; lia).
    destruct (cpus !! i) as [c0 |]; [ | reflexivity ].
    unfold fmap, option_fmap, option_map. rewrite Hb. reflexivity.
Qed.

Lemma lookup_impl_reg_windows (smp_cpus : nat) (cpus : list T8030CPU)
    (k : nat) (w : Z * Z) :
  Z.of_nat (Nat.min smp_cpus (length cpus)) <= 65536 ->
  impl_reg_windows smp_cpus cpus !! k = Some w ->
  (k = 0%nat /\ w = (CPM_IMPL_REG_BASE, 0x10000))
  \/ (k = 1%nat /\ w = (CPM_IMPL_REG_BASE + 0x10000, 0x10000))
  \/ (exists i : nat, k = S (S i)
        /\ (i < Nat.min smp_cpus (length cpus))%nat
        /\ w = (CPU_IMPL_REG_BASE + 0x10000 * Z.of_nat i, 0x10000)).
Proof.
  intros Hmax Hk. unfold impl_reg_windows in Hk.
  destruct k as [| [| i]].
  - left. injection Hk as <-. split; reflexivity.
  - right. left. injection Hk as <-. split; reflexivity.
  - right. right. exists i. split; [ reflexivity | ].
    rewrite lookup_app_r in Hk by (rewrite length_fmap; cbn; lia).
    rewrite length_fmap in Hk.
    change (length T8030_clusters) with 2%nat in Hk.
    replace (S (S i) - 2)%nat with i in Hk by lia.
    rewrite list_lookup_fmap, fmap_Some in Hk.
    destruct Hk as (c & Hc & ->).
    apply lookup_T8030_cpu_setup_cores in Hc as (Hlt & c0 & Hc0 & ->).
    split; [ exact Hlt | ].
    cbn [core_impl_reg_base core_impl_reg_size]. f_equal.
    unfold wrap32, CPU_IMPL_REG_BASE.
    rewrite Z.mod_small by (change (2 ^ 32) with 4294967296; lia).
    apply add64_small. lia.
Qed.

(** X17.  The implementation-register windows that [T8030_cpu_setup] adds
    to the system memory, two for the clusters and one per core, are
    pairwise disjoint as long as at most 223 cores are set up; with 224
    cores the window of core 223 is the window of cluster 0. *)
Theorem impl_reg_windows_disjoint (smp_cpus : nat) (cpus : list T8030CPU) :
  (Nat.min smp_cpus (length cpus) <= 223)%nat ->
  ForallOrdPairs windows_disjoint (impl_reg_windows smp_cpus cpus).
Proof.
  intros Hmax. apply ForallOrdPairs_lookup.
  intros i j a b Hij Ha Hb.
  apply lookup_impl_reg_windows in Ha; [ | lia ].
  apply lookup_impl_reg_windows in Hb; [ | lia ].
  unfold windows_disjoint, CPM_IMPL_REG_BASE, CPU_IMPL_REG_BASE in *.
  destruct Ha as [[-> ->] | [[-> ->] | (ia & -> & Hia & ->)]];
    destruct Hb as [[-> ->] | [[-> ->] | (ib & -> & Hib & ->)]];
    cbn [fst snd]; lia.
Qed.

Lemma impl_reg_windows_disjoint_witness :
  ForallOrdPairs windows_disjoint
    (impl_reg_windows 6 (replicate 6 (zeroed_cpu 0))).
Proof.
  apply (impl_reg_windows_disjoint 6 (replicate 6 (zeroed_cpu 0))).
  cbn. lia.
Defined.

(** With 224 cores the window of core 223 is the window of cluster 0. *)
Lemma core_223_window_is_cluster_0 :
  impl_reg_windows 224 (replicate 224 (zeroed_cpu 0)) !! 225%nat
  = impl_reg_windows 224 (replicate 224 (zeroed_cpu 0)) !! 0%nat.
Proof. vm_compute. reflexivity. Qed.

(** ** The properties of the machine object *)

Lemma ascii_eqb_zero (c : ascii) :
  Ascii.eqb c Ascii.zero = (Z.of_nat (nat_of_ascii c) =? 0).
Proof.
  destruct (Ascii.eqb_spec c Ascii.zero) as [-> | Hne]; [ reflexivity | ].
  symmetry. apply Z.eqb_neq. intros H0. apply Hne.
  rewrite <- (ascii_nat_embedding c).
  replace (nat_of_ascii c) with 0%nat by lia. reflexivity.
Qed.

Lemma c_str_idem (s : string) : c_str (c_str s) = c_str s.
Proof.
  induction s as [| c s IH]; [ reflexivity | ]. cbn [c_str].
  destruct (Ascii.eqb c Ascii.zero) eqn:Hc; [ reflexivity | ].
  cbn [c_str]. rewrite Hc, IH. reflexivity.
Qed.

Lemma c_str_string_prefix (n : nat) (s : string) :
  c_str (string_prefix n (c_str s)) = string_prefix n (c_str s).
Proof.
  revert n. induction s as [| c s IH]; intros n.
  - destruct n; reflexivity.
  - cbn [c_str]. destruct (Ascii.eqb c Ascii.zero) eqn:Hc.
    + destruct n; reflexivity.
    + destruct n; [ reflexivity | ]. cbn [string_prefix c_str].
      rewrite Hc, IH. reflexivity.
Qed.

Lemma length_string_prefix (n : nat) (s : string) :
  (String.length (string_prefix n s) <= n)%nat.
Proof.
  revert s. induction n as [| n IH]; intros s; [ cbn; lia | ].
  destruct s as [| c s]; cbn; [ lia | ]. specialize (IH s). lia.
Qed.

Lemma string_prefix_all (n : nat) (s : string) :
  (String.length s <= n)%nat -> string_prefix n s = s.
Proof.
  revert s. induction n as [| n IH]; intros s Hlen.
  - destruct s; [ reflexivity | cbn in Hlen; lia ].
  - destruct s as [| c s]; [ reflexivity | ]. cbn in *.
    rewrite IH by lia. reflexivity.
Qed.

Lemma first_char_c_str (s : string) : first_char (c_str s) = first_char s.
Proof.
  destruct s as [| c s]; [ reflexivity | ]. cbn [c_str first_char].
  rewrite ascii_eqb_zero.
  destruct (Z.eqb_spec (Z.of_nat (nat_of_ascii c)) 0) as [H0 | Hne];
    [ rewrite H0 | ]; reflexivity.
Qed.

Lemma first_char_g_strlcpy (v : string) (n : nat) :
  (2 <= n)%nat -> first_char (g_strlcpy v n) = first_char v.
Proof.
  intros Hn. unfold g_strlcpy. rewrite <- (first_char_c_str v).
  destruct (n - 1)%nat as [| k] eqn:Hk; [ lia | ].
  destruct (c_str v); reflexivity.
Qed.

Lemma g_strlcpy_copies (field : machine_properties -> string)
    (set : machine_properties -> string -> machine_properties) (n : nat) :
  (forall tms value, field (set tms value) = g_strlcpy value n) ->
  copies_with_truncation set (fun tms => g_strdup (field tms)) n.
Proof.
  intros Hset tms value. rewrite Hset. unfold g_strdup, g_strlcpy.
  rewrite c_str_string_prefix.
  split; [ reflexivity | ]. split; [ apply length_string_prefix | ].
  intros Hnul Hlen. rewrite Hnul. apply string_prefix_all. lia.
Qed.

(** X18.  For each of the four string properties, reading the property
    after setting it returns the value cut at its first NUL and at one
    character less than the size of the array behind the property: never
    more than fits, and the value itself whenever it fits.  The setter of a
    string property prints nothing.  Setting any of the five properties
    changes no member of the machine object but the one behind that
    property, so every other property reads as before. *)
Theorem string_properties_round_trip (sz : property_sizes) :
  copies_with_truncation (T8030_set_ramdisk_filename sz)
                         T8030_get_ramdisk_filename
                         (sizeof_ramdisk_filename sz)
  /\ copies_with_truncation (T8030_set_kernel_filename sz)
                            T8030_get_kernel_filename
                            (sizeof_kernel_filename sz)
  /\ copies_with_truncation (T8030_set_dtb_filename sz)
                            T8030_get_dtb_filename
                            (sizeof_dtb_filename sz)
  /\ copies_with_truncation (T8030_set_kern_args sz)
                            T8030_get_kern_args
                            (sizeof_kern_args sz)
  /\ (forall (p : machine_property) tms v,
        p <> PropXnuRamfb -> (property_set sz p tms v).2 = [])
  /\ (forall (p q : machine_property) tms v,
        q <> p ->
        property_member q (property_set sz p tms v).1 = property_member q tms)
  /\ (forall (p q : machine_property) tms v,
        q <> p ->
        property_get q (property_set sz p tms v).1 = property_get q tms).
Proof.
  split; [ apply (g_strlcpy_copies tms_ramdisk_filename); reflexivity | ].
  split; [ apply (g_strlcpy_copies tms_kernel_filename); reflexivity | ].
  split; [ apply (g_strlcpy_copies tms_dtb_filename); reflexivity | ].
  split; [ apply (g_strlcpy_copies tms_kern_args); reflexivity | ].
  split; [ intros p tms v Hp; destruct p; try reflexivity; contradiction | ].
  split.
  - intros p q tms v Hne.
    destruct p, q; try contradiction; try reflexivity;
      cbn [property_set property_member]; unfold T8030_set_xnu_ramfb;
      destruct (strcmp_eq0 v "on"); reflexivity.
  - intros p q tms v Hne.
    destruct p, q; try contradiction; try reflexivity;
      cbn [property_set property_get]; unfold T8030_set_xnu_ramfb;
      destruct (strcmp_eq0 v "on"); reflexivity.
Qed.

(** X19.  The property [xnu-ramfb] reads back "on" exactly when it was set
    to a value that compares equal to "on", and "off" after every other
    value; the note about an invalid value is printed exactly when the value
    is neither "on" nor "off"; setting the property to what it reads as
    changes nothing and prints nothing. *)
Theorem xnu_ramfb_set_get (tms : machine_properties) (value : string) :
  T8030_get_xnu_ramfb (T8030_set_xnu_ramfb tms value).1
  = (if strcmp_eq0 value "on" then "on"%string else "off"%string)
  /\ ((T8030_set_xnu_ramfb tms value).2 = []
      <-> c_str value = "on"%string \/ c_str value = "off"%string)
  /\ T8030_set_xnu_ramfb tms (T8030_get_xnu_ramfb tms) = (tms, [])
  /\ tms_ramdisk_filename (T8030_set_xnu_ramfb tms value).1
     = tms_ramdisk_filename tms.
Proof.
  unfold T8030_set_xnu_ramfb, T8030_get_xnu_ramfb, strcmp_eq0.
  change (c_str "on") with "on"%string.
  change (c_str "off") with "off"%string.
  split; [ destruct (String.eqb_spec (c_str value) "on"); reflexivity | ].
  split.
  - destruct (String.eqb_spec (c_str value) "on") as [Hon | Hon];
      cbn [snd]; [ tauto | ].
    destruct (String.eqb_spec (c_str value) "off") as [Hoff | Hoff];
      cbn [snd negb]; [ tauto | ].
    split; [ discriminate | intros [H | H]; contradiction ].
  - split.
    + destruct tms as [rd kf df ka fb]. destruct fb; reflexivity.
    + destruct (String.eqb (c_str value) "on"); reflexivity.
Qed.

(** X20.  What is set through the properties is what the layout sees.
    After the ramdisk filename is set to a value (the array holding at
    least one character and the NUL), the layout has no ramdisk exactly when
    the value is empty; after [xnu-ramfb] is set, the framebuffer device is
    defined, inside the scratch data, exactly when the value compares equal
    to "on". *)
Theorem properties_reach_layout (abi : xnu_abi) (sz : property_sizes)
    (tms : machine_properties) (e : setup_inputs) (value : string) :
  (2 <= sizeof_ramdisk_filename sz)%nat ->
  ramdisk_file_dev_pa
    (memory_layout abi
       (inputs_of_machine (T8030_set_ramdisk_filename sz tms value) e))
  = (if first_char value =? 0 then 0
     else add64 (dtb_pa (memory_layout abi e))
                (align_64k_high T8030_MAX_DEVICETREE_SIZE))
  /\ ramfb_device
       (memory_layout abi
          (inputs_of_machine (T8030_set_xnu_ramfb tms value).1 e))
     = (if strcmp_eq0 value "on"
        then Some (add64 (extra_data_pa
                            (memory_layout abi
                               (inputs_of_machine tms e)))
                         (offsetof_AllocatedData_ramfb abi))
        else None).
Proof.
  intros Hsz. split.
  - unfold memory_layout.
    cbn [ramdisk_file_dev_pa inputs_of_machine with_use_ramfb
         with_ramdisk_filename ramdisk_filename T8030_set_ramdisk_filename
         tms_ramdisk_filename macho_kernel_high macho_virt_base dtb_pa].
    rewrite first_char_g_strlcpy by exact Hsz.
    destruct (first_char value =? 0); reflexivity.
  - unfold T8030_set_xnu_ramfb.
    destruct (strcmp_eq0 value "on"); reflexivity.
Qed.

Lemma properties_reach_layout_witness :
  ramdisk_file_dev_pa
    (memory_layout example_abi
       (inputs_of_machine
          (T8030_set_ramdisk_filename (MkSizes 1024 1024 1024 1024)
             (MkProps "" "" "" "" false) "rd.dmg")
          example_inputs))
  = 0x49050000
  /\ ramfb_device
       (memory_layout example_abi
          (inputs_of_machine
             (T8030_set_xnu_ramfb (MkProps "" "" "" "" false) "rd.dmg").1
             example_inputs))
     = None.
Proof.
  apply (properties_reach_layout example_abi (MkSizes 1024 1024 1024 1024)
           (MkProps "" "" "" "" false) example_inputs "rd.dmg").
  cbn. lia.
Defined.

(** ** The further properties on the example machines *)

(** X5 (witness): the example machine, whose ramdisk file size is 0, with
    the ramdisk named. *)
Lemma zero_length_ramdisk_moves_nothing_witness :
  layout_outputs
    (memory_layout example_abi (with_ramdisk_filename "rd" example_inputs))
  = layout_outputs
      (memory_layout example_abi
         (with_ramdisk_filename EmptyString example_inputs))
  /\ ramdisk_size
       (memory_layout example_abi (with_ramdisk_filename "rd" example_inputs))
     = 0.
Proof.
  destruct (zero_length_ramdisk_moves_nothing example_abi example_inputs "rd"
              eq_refl) as (Hout & _ & _ & Hsize).
  split; [ exact Hout | exact Hsize ].
Defined.

(** X6 (witness): the machine with a ramdisk. *)
Lemma regions_packed_after_kernel_witness :
  packed (drop 2 (boot_regions example_abi example_inputs_ramdisk))
  /\ extra_data_pa (memory_layout example_abi example_inputs_ramdisk)
     + align_64k_high (sizeof_AllocatedData example_abi)
     = top_of_kernel_data_pa (memory_layout example_abi example_inputs_ramdisk).
Proof.
  apply (regions_packed_after_kernel example_abi example_inputs_ramdisk).
  unfold no_wraparound. vm_compute. intuition discriminate.
Defined.

(** X8 (witness): the machine with a ramdisk and 1 GiB of RAM. *)
Lemma regions_inside_dram_witness :
  Forall (inside_dram (memory_layout example_abi example_inputs_ramdisk))
         (boot_regions example_abi example_inputs_ramdisk)
  /\ top_of_kernel_data_pa (memory_layout example_abi example_inputs_ramdisk)
     <= dram_base (memory_layout example_abi example_inputs_ramdisk)
        + dram_size (memory_layout example_abi example_inputs_ramdisk)
  /\ dram_base (memory_layout example_abi example_inputs_ramdisk)
     + dram_size (memory_layout example_abi example_inputs_ramdisk)
     = allocated_ram_pa (memory_layout example_abi example_inputs_ramdisk)
       + remaining_mem_size (memory_layout example_abi example_inputs_ramdisk).
Proof.
  apply (regions_inside_dram example_abi example_inputs_ramdisk).
  - unfold no_wraparound. vm_compute. intuition discriminate.
  - unfold kernel_span_ok. vm_compute. intuition discriminate.
  - vm_compute. discriminate.
  - vm_compute. discriminate.
  - vm_compute. reflexivity.
Defined.

(** X11 (witness): the example machine, whose device tree has 0x20000
    bytes. *)
Lemma encoded_dtb_fits_witness :
  dtb_pa (memory_layout example_abi example_inputs) + 0x20000
  <= kbootargs_pa (memory_layout example_abi example_inputs).
Proof.
  destruct (T8030_memory_setup example_abi example_inputs) as [f | o] eqn:Hret;
    [ vm_compute in Hret; discriminate Hret | ].
  destruct (encoded_dtb_fits example_abi example_inputs o Hret)
    as (Hsize & _ & _ & Hfits).
  - unfold no_wraparound. vm_compute. intuition discriminate.
  - vm_compute. discriminate.
  - rewrite Hsize in Hfits. exact Hfits.
Defined.
